(** * Stack Tracker Pro backend: price resolution and ETF ratio calibration

    A shallow embedding of the price logic of [backend/server.js]
    ([findNearestValue], [getHistoricalPrice], the [/api/spot-prices] and
    [/api/historical-spot/bulk] handlers) and of
    [backend/services/calibrateRatios.js] ([calibrateRatios],
    [getRatioForDate]).

    JavaScript numbers are IEEE-754 binary64 values and are modelled by Rocq's
    primitive [float]; date-keyed objects are finite maps from strings;
    module-level mutable variables are threaded explicitly as state. *)

From Stdlib Require Import ZArith Floats Ascii String.
From stdpp Require Import gmap strings list sorting.

Set Warnings "-inexact-float".

(** ** The JavaScript primitives the code relies on *)

Module JS.

Open Scope float_scope.

(** Truthiness of a number: every number except [0], [-0] and [NaN]. *)
Definition truthyNumber (x : float) : bool := negb (is_zero x || is_nan x).

(** Truthiness of [obj[key]] for an object holding numbers:
    a missing property reads as [undefined], which is falsy. *)
Definition truthy (v : option float) : bool :=
  match v with
  | Some x => truthyNumber x
  | None => false
  end.

(** The number read from [obj[key]]; [undefined] used as a number is
    [NaN]. *)
Definition number (v : option float) : float := default nan v.

(** Truthiness of a string: every string except the empty one. *)
Definition truthyString (s : string) : bool :=
  match s with
  | EmptyString => false
  | String _ _ => true
  end.

(** The integer [n] for which [n / 10^digits - m * 2^e] is as close to zero
    as possible, the larger one when there are two
    (step 10.a of [Number.prototype.toFixed]). *)
Definition scaledRound (digits : Z) (m : positive) (e : Z) : Z :=
  if (0 <=? e)%Z then (Z.pos m * 2 ^ e * 10 ^ digits)%Z
  else ((2 * 10 ^ digits * Z.pos m + 2 ^ (- e)) / 2 ^ (1 - e))%Z.

(** The double nearest to [(-1)^s * n / 10^digits]: what [parseFloat] reads
    back from the decimal string [toFixed] prints. *)
Definition decimalToNumber (digits : Z) (s : bool) (n : Z) : float :=
  match n with
  | Z.pos p =>
      SF2Prim (SFdiv prec emax (S754_finite s p 0)
                 (S754_finite false (Z.to_pos (10 ^ digits)) 0))
  | _ => SF2Prim (S754_zero s)
  end.

(** [parseFloat(x.toFixed(digits))].  [toFixed] prints [NaN], the
    infinities and every [|x| >= 1e21] with [ToString], which [parseFloat]
    reads back unchanged; [-0] prints as an unsigned zero; every other
    value is rounded to [digits] decimals, ties away from zero. *)
Definition toFixed (digits : Z) (x : float) : float :=
  match Prim2SF x with
  | S754_finite s m e =>
      if 1e21 <=? abs x then x
      else decimalToNumber digits s (scaledRound digits m e)
  | S754_zero _ => 0
  | S754_infinity _ | S754_nan => x
  end.

(** [parseFloat(x)] for a number [x]: the argument is first printed with
    [ToString], which round-trips every value but [-0] (printed ["0"]). *)
Definition parseFloat (x : float) : float :=
  if is_zero x then 0 else x.

(** [String.prototype.toLowerCase] on ASCII text. *)
Definition lowerAscii (c : ascii) : ascii :=
  let n := Ascii.N_of_ascii c in
  if ((65 <=? n) && (n <=? 90))%N then Ascii.ascii_of_N (n + 32) else c.

Fixpoint toLowerCase (s : string) : string :=
  match s with
  | EmptyString => EmptyString
  | String c s' => String (lowerAscii c) (toLowerCase s')
  end.

Definition isDigit (c : ascii) : bool :=
  let n := Ascii.N_of_ascii c in ((48 <=? n) && (n <=? 57))%N.

Definition isDash (c : ascii) : bool := (Ascii.N_of_ascii c =? 45)%N.

(** [/^\d{4}-\d{2}-\d{2}$/.test(s)] *)
Definition testDatePattern (s : string) : bool :=
  match s with
  | String y1 (String y2 (String y3 (String y4 (String d1
      (String m1 (String m2 (String d2 (String a1 (String a2 EmptyString))))))))) =>
      isDigit y1 && isDigit y2 && isDigit y3 && isDigit y4 && isDash d1
      && isDigit m1 && isDigit m2 && isDash d2 && isDigit a1 && isDigit a2
  | _ => false
  end.

(** *** [new Date(s).getTime()] on calendar dates

    The resolver is verified for an arbitrary date parser (the section
    variable [getTime] of [Server]); this instance, used in the evaluated
    scenarios, covers the [YYYY-MM-DD] form the endpoints accept: UTC
    midnight of that day in milliseconds since the epoch.  Every other
    string, and every day that is not on the calendar, is treated as an
    invalid date ([None], the [NaN] time value). *)

Definition digitValue (c : ascii) : Z := Z.of_N (Ascii.N_of_ascii c) - 48.

Definition isLeapYear (y : Z) : bool :=
  ((y mod 4 =? 0) && (negb (y mod 100 =? 0) || (y mod 400 =? 0)))%Z.

Definition daysInMonth (y m : Z) : Z :=
  if (m =? 2)%Z then (if isLeapYear y then 29 else 28)
  else if ((m =? 4) || (m =? 6) || (m =? 9) || (m =? 11))%Z then 30
  else 31.

(** Days between 1970-01-01 and the proleptic Gregorian date [y-m-d]. *)
Definition daysFromCivil (y m d : Z) : Z :=
  let y' := (if (m <=? 2) then y - 1 else y)%Z in
  let era := (y' / 400)%Z in
  let yoe := (y' - era * 400)%Z in
  let mp := (if (2 <? m) then m - 3 else m + 9)%Z in
  let doy := ((153 * mp + 2) / 5 + d - 1)%Z in
  let doe := (yoe * 365 + yoe / 4 - yoe / 100 + doy)%Z in
  (era * 146097 + doe - 719468)%Z.

Definition msPerDay : Z := 24 * 60 * 60 * 1000.

Definition dateTime (s : string) : option Z :=
  match s with
  | String y1 (String y2 (String y3 (String y4 (String _
      (String m1 (String m2 (String _ (String a1 (String a2 EmptyString))))))))) =>
      if testDatePattern s then
        let y := (digitValue y1 * 1000 + digitValue y2 * 100
                  + digitValue y3 * 10 + digitValue y4)%Z in
        let m := (digitValue m1 * 10 + digitValue m2)%Z in
        let d := (digitValue a1 * 10 + digitValue a2)%Z in
        if ((1 <=? m) && (m <=? 12) && (1 <=? d) && (d <=? daysInMonth y m))%Z
        then Some (daysFromCivil y m d * msPerDay)%Z
        else None
      else None
  | _ => None
  end.

End JS.

(** ** [backend/server.js]: historical price resolution and the price endpoints *)

Module Server.

Import JS.
Open Scope float_scope.

(** [let spotPriceCache = { silver, gold, timestamp }]; [timestamp] is
    [null] until the first successful fetch. *)
Record SpotPriceCache := {
  silver : float;
  gold : float;
  timestamp : option Z
}.

Definition initialSpotPriceCache : SpotPriceCache :=
  {| silver := 30.50; gold := 2650.00; timestamp := None |}.

(** The module-level variables the resolver and the handlers read. *)
Record State := {
  spotPriceCache : SpotPriceCache;
  historicalGoldPrices : gmap string float;
  historicalGoldSilverRatio : gmap string float
}.

Inductive Source := exact | interpolated | estimated | nearest | fallback.

Record ResolvedPrice := {
  price : float;
  source : Source;
  note : string
}.

(** The [{ date, value }] object [findNearestValue] returns. *)
Record Nearest := {
  date : string;
  value : float
}.

(** [closestDiff]: [Infinity] or a number of milliseconds. *)
Inductive Diff := Infinity | Millis (ms : Z).

(** [Math.abs(a - target)] on time values; [None] is [NaN]. *)
Definition absDiff (a target : option Z) : option Z :=
  match a, target with
  | Some x, Some t => Some (Z.abs (x - t))
  | _, _ => None
  end.

(** [diff < closestDiff]; a comparison with [NaN] is false. *)
Definition diffLt (diff : option Z) (closestDiff : Diff) : bool :=
  match diff, closestDiff with
  | None, _ => false
  | Some _, Infinity => true
  | Some d, Millis c => (d <? c)%Z
  end.

(** [closestDiff <= limit] *)
Definition diffLe (closestDiff : Diff) (limit : Z) : bool :=
  match closestDiff with
  | Infinity => false
  | Millis c => (c <=? limit)%Z
  end.

(** Sequencing of blocks that may [return]: the first block that returns
    a value decides, a block that falls through hands over to the next. *)
Definition orElse {A : Type} (block next : option A) : option A :=
  match block with
  | Some r => Some r
  | None => next
  end.

#[local] Infix "<|>" := orElse (at level 61, left associativity).

(** [Object.keys(dataObj).sort()]: the keys in ascending code-unit order. *)
Definition sortedKeys (dataObj : gmap string float) : list string :=
  merge_sort String.le (elements (dom dataObj)).

Definition thirtyDays : Z := 30 * 24 * 60 * 60 * 1000.

Section Resolver.

(** [new Date(s).getTime()], with [None] for [NaN]. *)
Variable getTime : string -> option Z.

(** One iteration of [for (const date of dates)]. *)
Definition scanStep (dataObj : gmap string float) (target : option Z)
    (acc : option Nearest * Diff) (date : string) : option Nearest * Diff :=
  let diff := absDiff (getTime date) target in
  if diffLt diff acc.2 then
    match diff with
    | Some d => (Some {| date := date; value := number (dataObj !! date) |}, Millis d)
    | None => acc
    end
  else acc.

Definition findNearestValue (dataObj : gmap string float)
    (targetDate : string) : option Nearest :=
  let dates := sortedKeys dataObj in
  if (length dates =? 0)%nat then None
  else
    let target := getTime targetDate in
    let '(closest, closestDiff) :=
      foldl (scanStep dataObj target) (None, Infinity) dates in
    if diffLe closestDiff thirtyDays then closest else None.

(** [(metal || 'silver').toLowerCase()]; [None] is a missing [metal]. *)
Definition metalTypeOf (metal : option string) : string :=
  toLowerCase
    match metal with
    | Some m => if truthyString m then m else "silver"
    | None => "silver"
    end.

(** [if (metalType === 'gold' && historicalGoldPrices[date]) return ...] *)
Definition goldExact (st : State) (date metalType : string)
    : option ResolvedPrice :=
  if String.eqb metalType "gold" && truthy (historicalGoldPrices st !! date)
  then Some {| price := number (historicalGoldPrices st !! date);
               source := exact;
               note := "Exact daily price from freegoldapi.com" |}
  else None.

(** The first [if (metalType === 'silver')] block. *)
Definition silverFromExactGold (st : State) (date metalType : string)
    : option ResolvedPrice :=
  if String.eqb metalType "silver" then
    let goldPrice := historicalGoldPrices st !! date in
    let ratio := historicalGoldSilverRatio st !! date in
    if truthy goldPrice && truthy ratio then
      Some {| price := toFixed 2 (number goldPrice / number ratio);
              source := exact;
              note := "Calculated from exact gold price and gold/silver ratio" |}
    else if truthy goldPrice then
      match findNearestValue (historicalGoldSilverRatio st) date with
      | Some nearestRatio =>
          Some {| price := toFixed 2 (number goldPrice / value nearestRatio);
                  source := interpolated;
                  note := "Gold price exact, ratio from "
                            +:+ Server.date nearestRatio |}
      | None =>
          Some {| price := toFixed 2 (number goldPrice / 80);
                  source := estimated;
                  note := "Calculated from gold price with estimated ratio" |}
      end
    else None
  else None.

(** The second [if (metalType === 'gold')] block. *)
Definition goldNearest (st : State) (date metalType : string)
    : option ResolvedPrice :=
  if String.eqb metalType "gold" then
    match findNearestValue (historicalGoldPrices st) date with
    | Some n =>
        Some {| price := value n; source := nearest;
                note := "Nearest available date: " +:+ Server.date n |}
    | None => None
    end
  else None.

(** The second [if (metalType === 'silver')] block. *)
Definition silverFromNearestGold (st : State) (date metalType : string)
    : option ResolvedPrice :=
  if String.eqb metalType "silver" then
    let nearestGold := findNearestValue (historicalGoldPrices st) date in
    let nearestRatio := findNearestValue (historicalGoldSilverRatio st) date in
    match nearestGold with
    | Some ng =>
        let ratioToUse :=
          match nearestRatio with Some nr => value nr | None => 80 end in
        Some {| price := toFixed 2 (value ng / ratioToUse);
                source := interpolated;
                note := "Estimated from " +:+ Server.date ng +:+ " gold price" |}
    | None => None
    end
  else None.

(** The final [return]: the current cache price. *)
Definition ultimateFallback (st : State) (metalType : string) : ResolvedPrice :=
  {| price := if String.eqb metalType "silver"
              then silver (spotPriceCache st) else gold (spotPriceCache st);
     source := fallback;
     note := "Historical data unavailable - using current price" |}.

(** [function getHistoricalPrice(date, metal)]: the blocks are tried in
    source order and the first one that returns wins. *)
Definition getHistoricalPrice (st : State) (date : string)
    (metal : option string) : ResolvedPrice :=
  let metalType := metalTypeOf metal in
  default (ultimateFallback st metalType)
    (goldExact st date metalType
     <|> silverFromExactGold st date metalType
     <|> goldNearest st date metalType
     <|> silverFromNearestGold st date metalType).

(** *** [GET /api/spot-prices] *)

(** What [fetch('https://api.metals.live/v1/spot')] and the reading of
    its body come to.  The body either is an array of [{ metal, price }]
    entries or an object with [silver] and [gold] properties; a missing
    property is [None]. *)
Record PriceEntry := {
  entryMetal : string;
  entryPrice : option float
}.

Inductive Prices :=
  | PricesArray (entries : list PriceEntry)
  | PricesObject (silverField goldField : option float).

Inductive FetchOutcome :=
  | FetchRejected          (* network failure, or abort after 5000 ms *)
  | ResponseNotOk          (* [response.ok] is false *)
  | BodyUnreadable         (* [response.json()] or a property read throws *)
  | Body (prices : Prices).

(** [v || null] *)
Definition orNull (v : option float) : option float :=
  if truthy v then v else None.

(** [prices.find(p => p.metal === m)?.price] *)
Definition findPrice (entries : list PriceEntry) (m : string) : option float :=
  match List.find (fun p => String.eqb (entryMetal p) m) entries with
  | Some p => entryPrice p
  | None => None
  end.

(** The [silver] and [gold] variables after the body has been read. *)
Definition extractPrices (prices : Prices) : option float * option float :=
  match prices with
  | PricesArray entries =>
      (orNull (findPrice entries "silver"), orNull (findPrice entries "gold"))
  | PricesObject s g => (orNull s, orNull g)
  end.

(** The JSON body of the response; [timestamp] is kept in milliseconds
    instead of its ISO rendering, and absent properties are [None]. *)
Record SpotResponse := {
  success : bool;
  silverOut : float;
  goldOut : float;
  timestampOut : Z;
  cached : option bool;
  noteOut : option string
}.

(** [spotPriceCache.timestamp && (now - spotPriceCache.timestamp) < 5 * 60 * 1000] *)
Definition cacheFresh (cache : SpotPriceCache) (now : Z) : bool :=
  match timestamp cache with
  | Some t => negb (t =? 0)%Z && (now - t <? 5 * 60 * 1000)%Z
  | None => false
  end.

Definition cachedResponse (cache : SpotPriceCache) (later : Z) : SpotResponse :=
  {| success := true;
     silverOut := silver cache;
     goldOut := gold cache;
     timestampOut := later;
     cached := Some true;
     noteOut := Some "Using cached prices - live API temporarily unavailable" |}.

(** The handler: [now] is [Date.now()] on entry, [later] the clock when
    the response is built, [fetched] the outcome of the live request
    (only consulted when the cache is stale).  Returns the response and
    the new value of [spotPriceCache]. *)
Definition spotPricesHandler (cache : SpotPriceCache) (now later : Z)
    (fetched : FetchOutcome) : SpotResponse * SpotPriceCache :=
  if cacheFresh cache now then
    ({| success := true;
        silverOut := silver cache;
        goldOut := gold cache;
        timestampOut := default 0%Z (timestamp cache);
        cached := Some true;
        noteOut := None |}, cache)
  else
    match fetched with
    | Body prices =>
        match extractPrices prices with
        | (Some s, Some g) =>
            ({| success := true; silverOut := s; goldOut := g;
                timestampOut := later; cached := None; noteOut := None |},
             {| silver := s; gold := g; timestamp := Some now |})
        | _ => (cachedResponse cache later, cache)
        end
    | _ => (cachedResponse cache later, cache)
    end.

(** *** [GET /api/historical-spot] and [POST /api/historical-spot/bulk] *)

Record SpotJson := {
  spotDate : string;
  spotMetal : string;
  spotPrice : float;
  spotSource : Source;
  spotNote : string
}.

(** The [error] messages of the 400 responses. *)
Inductive RequestError :=
  | DateRequired          (* Date parameter required (YYYY-MM-DD format) *)
  | InvalidDateFormat     (* Invalid date format. Use YYYY-MM-DD *)
  | InvalidMetal          (* Metal must be silver or gold *)
  | DatesArrayRequired.   (* dates array required *)

Inductive Response (A : Type) :=
  | BadRequest (error : RequestError)  (* [res.status(400).json({ success: false, error })] *)
  | Success (body : A).                (* [res.json({ success: true, ... })] *)
Arguments BadRequest {A} error.
Arguments Success {A} body.

(** [req.query]: a missing parameter is [None]. *)
Definition historicalSpotHandler (st : State)
    (queryDate queryMetal : option string) : Response SpotJson :=
  match queryDate with
  | None => BadRequest DateRequired
  | Some d =>
      if negb (truthyString d) then BadRequest DateRequired
      else if negb (testDatePattern d) then BadRequest InvalidDateFormat
      else
        let metalType := metalTypeOf queryMetal in
        if negb (String.eqb metalType "silver" || String.eqb metalType "gold")
        then BadRequest InvalidMetal
        else
          let result := getHistoricalPrice st d (Some metalType) in
          Success {| spotDate := d; spotMetal := metalType;
                     spotPrice := price result;
                     spotSource := source result;
                     spotNote := note result |}
  end.

(** [req.body]: [dates] is [None] when it is missing or not an array. *)
Record BulkBody := {
  dates : option (list string);
  metal : option string
}.

Record BulkJson := {
  bulkMetal : string;
  prices : gmap string float
}.

(** The body of [for (const date of dates.slice(0, 100))]. *)
Definition bulkStep (st : State) (metalType : string)
    (results : gmap string float) (d : string) : gmap string float :=
  if testDatePattern d then
    let result := getHistoricalPrice st d (Some metalType) in
    <[d := price result]> results
  else results.

Definition bulkHandler (st : State) (body : BulkBody) : Response BulkJson :=
  match dates body with
  | None => BadRequest DatesArrayRequired
  | Some ds =>
      let metalType := metalTypeOf (metal body) in
      let results := foldl (bulkStep st metalType) ∅ (take 100 ds) in
      Success {| bulkMetal := metalType; prices := results |}
  end.

End Resolver.

Arguments BadRequest {A} error.
Arguments Success {A} body.

End Server.

(** ** [backend/services/calibrateRatios.js] *)

Module Calibrate.

Open Scope float_scope.

(** [let ratioCache = { date, slvRatio, gldRatio }]; [date] starts [null]. *)
Record RatioCache := {
  cacheDate : option string;
  cacheSlvRatio : float;
  cacheGldRatio : float
}.

(** A row of the [etf_ratios] table; the table is keyed by its [date]
    column (the conflict target of the upsert), which is the map key. *)
Record EtfRatioRow := {
  slv_ratio : float;
  gld_ratio : float;
  slv_price : float;
  gld_price : float;
  gold_spot : float;
  silver_spot : float;
  updated_at : string
}.

(** The in-memory cache and the storage.  [etf_ratios] is [None] when the
    Supabase client is [null] (credentials not configured). *)
Record State := {
  ratioCache : RatioCache;
  etf_ratios : option (gmap string EtfRatioRow)
}.

Definition isSupabaseAvailable (st : State) : bool :=
  match etf_ratios st with Some _ => true | None => false end.

(** An ETF quote as [calibrateRatios] reads it. *)
Record Quote := { quotePrice : float }.

(** The object [getCurrentETFQuotes()] resolves to; a missing quote is
    [None]. *)
Record Quotes := {
  slv : option Quote;
  gld : option Quote
}.

(** What one call observes of the outside world. *)
Record World := {
  quotes : option Quotes;        (* [None]: [getCurrentETFQuotes()] rejects *)
  today : string;                (* [new Date().toISOString().split('T')[0]] *)
  nowIso : string;               (* [new Date().toISOString()] *)
  upsertError : option string    (* the [error] of the upsert's result *)
}.

(** The object [calibrateRatios] returns. *)
Record Calibration := {
  slvRatio : float;
  gldRatio : float;
  slvPrice : float;
  gldPrice : float
}.

(** The object [getRatioForDate] returns. *)
Record Ratios := {
  ratioSlv : float;   (* [slv_ratio] *)
  ratioGld : float    (* [gld_ratio] *)
}.

(** [.upsert(row, { onConflict: 'date' })]: insert or replace the row of
    that date, unless the request fails. *)
Definition upsert (w : World) (row : EtfRatioRow)
    (table : gmap string EtfRatioRow) : gmap string EtfRatioRow :=
  match upsertError w with
  | Some _ => table
  | None => <[today w := row]> table
  end.

Definition calibrateRatios (st : State) (w : World)
    (currentGoldSpot currentSilverSpot : float) : option Calibration * State :=
  match quotes w with
  | None => (None, st)
  | Some q =>
      match slv q, gld q with
      | Some slvQuote, Some gldQuote =>
          let slvPrice := quotePrice slvQuote in
          let gldPrice := quotePrice gldQuote in
          let slvRatio := slvPrice / currentSilverSpot in
          let gldRatio := gldPrice / currentGoldSpot in
          let cache := {| cacheDate := Some (today w);
                          cacheSlvRatio := slvRatio;
                          cacheGldRatio := gldRatio |} in
          let row := {| slv_ratio := slvRatio; gld_ratio := gldRatio;
                        slv_price := slvPrice; gld_price := gldPrice;
                        gold_spot := currentGoldSpot;
                        silver_spot := currentSilverSpot;
                        updated_at := nowIso w |} in
          (Some {| slvRatio := slvRatio; gldRatio := gldRatio;
                   slvPrice := slvPrice; gldPrice := gldPrice |},
           {| ratioCache := cache;
              etf_ratios := upsert w row <$> etf_ratios st |})
      | _, _ => (None, st)
      end
  end.

(** Rows ordered by [date], latest first. *)
Definition laterFirst (a b : string * EtfRatioRow) : Prop := String.le b.1 a.1.

#[export] Instance laterFirst_dec : RelDecision laterFirst.
Proof. intros a b. unfold laterFirst. apply _. Defined.

(** [.select('*').lte('date', dateString).order('date', { ascending: false })
    .limit(1).single()]: the row, or [None] when the result is not exactly
    one row ([single] reports an error). *)
Definition selectLatest (table : gmap string EtfRatioRow) (dateString : string)
    : option (string * EtfRatioRow) :=
  let rows := filter (fun r => String.le r.1 dateString) (map_to_list table) in
  match take 1 (merge_sort laterFirst rows) with
  | [r] => Some r
  | _ => None
  end.

Section Defaults.

(** Exported by [./etfPrices], which is not part of the sources at hand. *)
Variables DEFAULT_SLV_RATIO DEFAULT_GLD_RATIO : float.

Definition initialRatioCache : RatioCache :=
  {| cacheDate := None;
     cacheSlvRatio := DEFAULT_SLV_RATIO;
     cacheGldRatio := DEFAULT_GLD_RATIO |}.

Definition defaultRatios : Ratios :=
  {| ratioSlv := DEFAULT_SLV_RATIO; ratioGld := DEFAULT_GLD_RATIO |}.

(** [queryFails]: the storage request reports an error or throws. *)
Definition getRatioForDate (st : State) (queryFails : bool)
    (dateString : string) : Ratios :=
  if decide (cacheDate (ratioCache st) = Some dateString) then
    {| ratioSlv := cacheSlvRatio (ratioCache st);
       ratioGld := cacheGldRatio (ratioCache st) |}
  else
    match etf_ratios st with
    | Some table =>
        if queryFails then defaultRatios
        else
          match selectLatest table dateString with
          | Some (_, data) =>
              {| ratioSlv := JS.parseFloat (slv_ratio data);
                 ratioGld := JS.parseFloat (gld_ratio data) |}
          | None => defaultRatios
          end
    | None => defaultRatios
    end.

End Defaults.

End Calibrate.

(** ** JavaScript string methods used by the loader and the receipt clean-up *)

Module Text.

Import JS.
Open Scope float_scope.

(** The ASCII members of [WhiteSpace] and [LineTerminator]: space and the
    characters 9 to 13. *)
Definition isWhiteSpace (c : ascii) : bool :=
  let n := Ascii.N_of_ascii c in ((n =? 32) || ((9 <=? n) && (n <=? 13)))%N.

(** [s.trimStart()] *)
Fixpoint trimStart (s : string) : string :=
  match s with
  | String c s' => if isWhiteSpace c then trimStart s' else s
  | EmptyString => EmptyString
  end.

(** [s.trimEnd()] *)
Definition trimEnd (s : string) : string := String.rev (trimStart (String.rev s)).

(** [s.trim()] *)
Definition trim (s : string) : string := trimEnd (trimStart s).

(** [s.split(sep)] for a one-character separator: never empty, an empty
    text gives one empty part. *)
Fixpoint split (sep : ascii) (s : string) : list string :=
  match s with
  | EmptyString => [EmptyString]
  | String c s' =>
      if Ascii.eqb c sep then EmptyString :: split sep s'
      else
        match split sep s' with
        | part :: parts => String c part :: parts
        | [] => [String c EmptyString]
        end
  end.

Definition comma : ascii := Ascii.ascii_of_N 44.
Definition newline : ascii := Ascii.ascii_of_N 10.

(** [s.startsWith(p)] *)
Definition startsWith (p s : string) : bool := String.prefix p s.

(** [s.endsWith(p)] *)
Definition endsWith (p s : string) : bool :=
  String.prefix (String.rev p) (String.rev s).

(** [s.slice(n)] for [n >= 0] *)
Fixpoint sliceFrom (n : nat) (s : string) : string :=
  match n, s with
  | O, _ => s
  | S n', String _ s' => sliceFrom n' s'
  | S _, EmptyString => EmptyString
  end.

(** [s.slice(0, -n)] *)
Definition sliceToLast (n : nat) (s : string) : string :=
  String.rev (sliceFrom n (String.rev s)).

(** *** [parseFloat] on text

    The loader is verified for an arbitrary [parseFloat] (the section
    variable [parseFloatOfText] of [Loader]); this instance, used in the
    evaluated scenarios, reads the longest prefix that is a decimal literal
    after leading white space: a sign, then [Infinity] or digits with an
    optional fraction and exponent.  The value is the double nearest to the
    decimal; no literal at all gives [NaN]. *)

(** The digits at the start of [s], appended to [acc]; their number; the
    rest of the text. *)
Fixpoint readDigits (s : string) (acc count : Z) : Z * Z * string :=
  match s with
  | String c s' =>
      if isDigit c then readDigits s' (acc * 10 + digitValue c)%Z (count + 1)%Z
      else (acc, count, s)
  | EmptyString => (acc, count, EmptyString)
  end.

Definition readSign (s : string) : bool * string :=
  match s with
  | String c s' =>
      if Ascii.eqb c "-" then (true, s')
      else if Ascii.eqb c "+" then (false, s')
      else (false, s)
  | EmptyString => (false, s)
  end.

(** The value of an exponent part at the start of [s]; without one, or
    without a digit in it, the exponent is 0. *)
Definition readExponent (s : string) : Z :=
  match s with
  | String c s' =>
      if Ascii.eqb c "e" || Ascii.eqb c "E" then
        let '(neg, s'') := readSign s' in
        let '(v, n, _) := readDigits s'' 0 0 in
        if (n =? 0)%Z then 0%Z else if neg then (- v)%Z else v
      else 0%Z
  | EmptyString => 0%Z
  end.

(** The double nearest to [(-1)^neg * n * 10^k]. *)
Definition decimalValue (neg : bool) (n k : Z) : float :=
  match n with
  | Z.pos p =>
      SF2Prim (SFdiv prec emax
                 (S754_finite neg (Z.to_pos (n * 10 ^ Z.max k 0)) 0)
                 (S754_finite false (Z.to_pos (10 ^ Z.max (- k) 0)) 0))
  | _ => SF2Prim (S754_zero neg)
  end.

Definition parseFloatText (s : string) : float :=
  let '(neg, s1) := readSign (trimStart s) in
  if String.prefix "Infinity" s1 then (if neg then neg_infinity else infinity)
  else
    let '(ip, ni, s2) := readDigits s1 0 0 in
    let '(fp, nf, s3) :=
      match s2 with
      | String c r => if Ascii.eqb c "." then readDigits r ip 0 else (ip, 0%Z, s2)
      | EmptyString => (ip, 0%Z, s2)
      end in
    if (ni + nf =? 0)%Z then nan
    else decimalValue neg fp (readExponent s3 - nf).

End Text.

(** ** [backend/server.js]: loading the historical tables *)

Module Loader.

Import JS Server Text.
Open Scope float_scope.

(** A property of a record of the gold feed: absent (or [null]), a number,
    or a string. *)
Inductive JsonValue :=
  | JsonAbsent
  | JsonNumber (x : float)
  | JsonText (s : string).

Definition truthyJson (v : JsonValue) : bool :=
  match v with
  | JsonAbsent => false
  | JsonNumber x => truthyNumber x
  | JsonText s => truthyString s
  end.

(** An element of [goldData]. *)
Record GoldRecord := {
  recordDate : option string;
  recordPrice : JsonValue
}.

(** What the request for [latest.json] comes to. *)
Inductive GoldFetch :=
  | GoldRejected      (* the request, [json()] or [forEach] throws *)
  | GoldNotOk         (* [goldResponse.ok] is false *)
  | GoldJson (goldData : list GoldRecord).

(** What the request for the ratio file comes to. *)
Inductive RatioFetch :=
  | RatioRejected     (* the request or [text()] throws *)
  | RatioNotOk        (* [ratioResponse.ok] is false *)
  | RatioCsv (csvText : string).

Section Parser.

(** [parseFloat] applied to a string. *)
Variable parseFloatOfText : string -> float.

(** [parseFloat(record.price)] *)
Definition parseFloatJson (v : JsonValue) : float :=
  match v with
  | JsonAbsent => nan
  | JsonNumber x => JS.parseFloat x
  | JsonText s => parseFloatOfText s
  end.

(** The callback of [goldData.forEach]. *)
Definition goldStep (table : gmap string float) (record : GoldRecord)
    : gmap string float :=
  match recordDate record with
  | Some d =>
      if truthyString d && truthyJson (recordPrice record)
      then <[d := parseFloatJson (recordPrice record)]> table
      else table
  | None => table
  end.

(** The body of [for (let i = 1; i < lines.length; i++)]. *)
Definition ratioStep (table : gmap string float) (line : string)
    : gmap string float :=
  let parts := split comma line in
  if (2 <=? length parts)%nat then
    let date := trim (hd EmptyString parts) in
    let ratio := parseFloatOfText (List.last parts EmptyString) in
    if truthyString date && negb (is_nan ratio) && (0 <? ratio)
    then <[date := ratio]> table
    else table
  else table.

(** [loadHistoricalData]: the state after the call and the new value of
    [historicalDataLoaded]. *)
Definition loadHistoricalData (st : State) (goldFetch : GoldFetch)
    (ratioFetch : RatioFetch) : State * bool :=
  match goldFetch with
  | GoldRejected => (st, false)
  | _ =>
      let golds :=
        match goldFetch with
        | GoldJson goldData => foldl goldStep (historicalGoldPrices st) goldData
        | _ => historicalGoldPrices st
        end in
      let ratios :=
        match ratioFetch with
        | RatioCsv csvText =>
            foldl ratioStep (historicalGoldSilverRatio st)
              (drop 1 (split newline csvText))
        | _ => historicalGoldSilverRatio st
        end in
      ({| spotPriceCache := spotPriceCache st;
          historicalGoldPrices := golds;
          historicalGoldSilverRatio := ratios |}, true)
  end.

End Parser.

(** The module-level variables at process start. *)
Definition initialState : State :=
  {| spotPriceCache := initialSpotPriceCache;
     historicalGoldPrices := ∅;
     historicalGoldSilverRatio := ∅ |}.

End Loader.

(** ** [backend/server.js]: cleaning the reply of the vision model *)

Module Receipt.

Import Text.

(** The lines between [content.text.trim()] and [JSON.parse] in the
    receipt and the stack endpoints. *)
Definition stripCodeFence (text : string) : string :=
  let jsonStr := trim text in
  let jsonStr :=
    if startsWith "```json" jsonStr then sliceFrom 7 jsonStr else jsonStr in
  let jsonStr :=
    if startsWith "```" jsonStr then sliceFrom 3 jsonStr else jsonStr in
  let jsonStr :=
    if endsWith "```" jsonStr then sliceToLast 3 jsonStr else jsonStr in
  trim jsonStr.

End Receipt.

(** ** [backend/services/calibrateRatios.js]: the calibration status *)

Module CalibrateStatus.

Import Calibrate.

(** [.select('date').order('date', { ascending: false }).limit(1).single()] *)
Definition selectLastDate (table : gmap string EtfRatioRow) : option string :=
  match take 1 (merge_sort laterFirst (map_to_list table)) with
  | [r] => Some r.1
  | _ => None
  end.

(** Truthiness of [ratioCache.date]: [null] and the empty string are
    falsy. *)
Definition truthyDate (d : option string) : bool :=
  match d with
  | Some s => JS.truthyString s
  | None => false
  end.

(** [queryFails]: the storage request reports an error or throws. *)
Definition getLastCalibrationDate (st : State) (queryFails : bool)
    : option string :=
  if truthyDate (cacheDate (ratioCache st)) then cacheDate (ratioCache st)
  else
    match etf_ratios st with
    | Some table => if queryFails then None else selectLastDate table
    | None => None
    end.

(** [today] is [new Date().toISOString().split('T')[0]]. *)
Definition needsCalibration (st : State) (queryFails : bool) (today : string)
    : bool :=
  negb (bool_decide (getLastCalibrationDate st queryFails = Some today)).

End CalibrateStatus.

(** ** [mobile-app/App.js]: the caller of the historical price endpoint *)

Module App.

Import JS Server.

(** The React state [fetchHistoricalSpot] reads. *)
Record SpotState := {
  metalTab : string;
  silverSpot : float;
  goldSpot : float
}.

(** What [fetch] and [response.json()] come to. *)
Inductive Reply :=
  | NoReply                                (* the request or [json()] throws *)
  | Answered (response : Response SpotJson).

(** [data.success && data.price], as the price to return. *)
Definition replyPrice (reply : Reply) : option float :=
  match reply with
  | Answered (Success json) =>
      if truthyNumber (spotPrice json) then Some (spotPrice json) else None
  | _ => None
  end.

(** [metal || metalTab] *)
Definition metalToUse (app : SpotState) (metal : option string) : string :=
  match metal with
  | Some m => if truthyString m then m else metalTab app
  | None => metalTab app
  end.

(** [request date metal] is the outcome of the GET with these two query
    parameters; the function returns [null] ([None]) or a price. *)
Definition fetchHistoricalSpot (app : SpotState)
    (request : string -> string -> Reply) (date : string)
    (metal : option string) : option float :=
  if negb (truthyString date) || (String.length date <? 10)%nat then None
  else
    match replyPrice (request date (metalToUse app metal)) with
    | Some p => Some p
    | None =>
        Some (if String.eqb (metalToUse app metal) "gold"
              then goldSpot app else silverSpot app)
    end.

End App.

(** ** Specification vocabulary for the nearest-date lookup *)

Section NearestSpec.

Variable getTime : string -> option Z.

(** Milliseconds between the days two keys denote, when both parse. *)
Definition distance (key target : string) : option Z :=
  Server.absDiff (getTime key) (getTime target).

(** [n] is the entry of [dataObj] whose key is closest to [target], at
    distance [d]; among equally close keys it is the first in sort order. *)
Record isNearest (dataObj : gmap string float) (target : string)
    (n : Server.Nearest) (d : Z) : Prop := {
  nearest_entry : dataObj !! Server.date n = Some (Server.value n);
  nearest_distance : distance (Server.date n) target = Some d;
  nearest_minimal :
    forall k d', k ∈ dom dataObj -> distance k target = Some d' ->
      (d <= d')%Z /\ (d' = d -> String.le (Server.date n) k)
}.

(** No key of [dataObj] lies within thirty days of [target]. *)
Definition allBeyondThirtyDays (dataObj : gmap string float)
    (target : string) : Prop :=
  forall k d, k ∈ dom dataObj -> distance k target = Some d ->
    (Server.thirtyDays < d)%Z.

(** What holds of [closest] and [closestDiff] after the loop has visited
    the keys [seen]. *)
Definition scanInv (dataObj : gmap string float) (target : string)
    (seen : list string) (acc : option Server.Nearest * Server.Diff) : Prop :=
  match acc with
  | (None, Server.Infinity) => forall k, k ∈ seen -> distance k target = None
  | (Some n, Server.Millis d) =>
      Server.date n ∈ seen /\
      Server.value n = JS.number (dataObj !! Server.date n) /\
      distance (Server.date n) target = Some d /\
      forall k d', k ∈ seen -> distance k target = Some d' ->
        (d <= d')%Z /\ (d' = d -> String.le (Server.date n) k)
  | _ => False
  end.

End NearestSpec.

(** ** Specification vocabulary for the live fetch and the ETF quotes *)

(** The silver and gold prices of a live fetch that succeeded with both
    present; [None] for every failed, partial or malformed outcome. *)
Definition liveQuote (fetched : Server.FetchOutcome) : option (float * float) :=
  match fetched with
  | Server.Body prices =>
      match Server.extractPrices prices with
      | (Some s, Some g) => Some (s, g)
      | _ => None
      end
  | _ => None
  end.

(** Either ETF quote is unavailable: the quote request failed, or its result
    lacks the SLV or the GLD quote. *)
Definition quoteUnavailable (w : Calibrate.World) : Prop :=
  match Calibrate.quotes w with
  | None => True
  | Some q => Calibrate.slv q = None \/ Calibrate.gld q = None
  end.

(** ** Concrete tables, caches and calibration data used in the examples *)

Section Scenarios.

Import JS Server.
Open Scope float_scope.

(** One gold record and one ratio record on the same day. *)
Definition sameDayState : State :=
  {| spotPriceCache := initialSpotPriceCache;
     historicalGoldPrices := {[ "2024-04-19" := 2391.50 ]};
     historicalGoldSilverRatio := {[ "2024-04-19" := 84.5 ]} |}.

(** A gold record with the closest ratio record one day earlier. *)
Definition nearbyRatioState : State :=
  {| spotPriceCache := initialSpotPriceCache;
     historicalGoldPrices := {[ "2024-04-19" := 2391.50 ]};
     historicalGoldSilverRatio := {[ "2024-04-18" := 84.5 ]} |}.

(** A gold record and no ratio data at all. *)
Definition noRatioState : State :=
  {| spotPriceCache := initialSpotPriceCache;
     historicalGoldPrices := {[ "2024-04-19" := 2391.50 ]};
     historicalGoldSilverRatio := ∅ |}.

(** No historical data, spot cache not yet fetched. *)
Definition emptyState : State :=
  {| spotPriceCache := initialSpotPriceCache;
     historicalGoldPrices := ∅;
     historicalGoldSilverRatio := ∅ |}.

(** A spot cache fetched ten minutes before [1713485400000]. *)
Definition tenMinutesOld : SpotPriceCache :=
  {| silver := 28.25; gold := 2391.50; timestamp := Some 1713484800000%Z |}.

End Scenarios.

Section CalibrationScenarios.

Import Calibrate.
Open Scope float_scope.

(** Sample default ratios; the real constants live in [./etfPrices]. *)
Definition sampleSlvDefault : float := 0.92.
Definition sampleGldDefault : float := 0.092.

Definition sampleRow (slvR gldR : float) : EtfRatioRow :=
  {| slv_ratio := slvR; gld_ratio := gldR;
     slv_price := 28.10; gld_price := 246.9;
     gold_spot := 2650; silver_spot := 30.5;
     updated_at := "2024-04-19T14:30:00.000Z" |}.

(** Calibrated in memory for 2024-04-21; stored records for 2024-04-19 and
    2024-04-22. *)
Definition calibratedState : State :=
  {| ratioCache := {| cacheDate := Some "2024-04-21";
                      cacheSlvRatio := 0.93; cacheGldRatio := 0.094 |};
     etf_ratios := Some (<[ "2024-04-19" := sampleRow 0.921 0.0931 ]>
                           {[ "2024-04-22" := sampleRow 0.925 0.0935 ]}) |}.

(** The SLV quote is missing. *)
Definition slvMissing : World :=
  {| quotes := Some {| slv := None; gld := Some {| quotePrice := 246.9 |} |};
     today := "2024-04-23";
     nowIso := "2024-04-23T14:30:00.000Z";
     upsertError := None |}.

(** Both quotes arrive and the upsert reports an error. *)
Definition storageDown : World :=
  {| quotes := Some {| slv := Some {| quotePrice := 28.10 |};
                       gld := Some {| quotePrice := 246.9 |} |};
     today := "2024-04-23";
     nowIso := "2024-04-23T14:30:00.000Z";
     upsertError := Some "connection refused" |}.

End CalibrationScenarios.

(** ** Specification vocabulary for the loader, the caches and the clients *)

(** The state with another spot cache and the same historical tables. *)
Definition withSpotCache (st : Server.State) (cache : Server.SpotPriceCache)
    : Server.State :=
  {| Server.spotPriceCache := cache;
     Server.historicalGoldPrices := Server.historicalGoldPrices st;
     Server.historicalGoldSilverRatio := Server.historicalGoldSilverRatio st |}.



(** Every value of the table is a positive number. *)
Definition allPositive (table : gmap string float) : Prop :=
  forall k v, table !! k = Some v -> (0 <? v)%float = true.

Section LoaderSpec.

Variable parseFloatOfText : string -> float.

(** The entry a record of the gold feed contributes, if any. *)
Definition goldEntry (record : Loader.GoldRecord) : option (string * float) :=
  match Loader.recordDate record with
  | Some d =>
      if JS.truthyString d && Loader.truthyJson (Loader.recordPrice record)
      then Some (d, Loader.parseFloatJson parseFloatOfText
                      (Loader.recordPrice record))
      else None
  | None => None
  end.

(** The entry a line of the ratio file contributes, if any. *)
Definition ratioEntry (line : string) : option (string * float) :=
  let parts := Text.split Text.comma line in
  let date := Text.trim (hd EmptyString parts) in
  let ratio := parseFloatOfText (List.last parts EmptyString) in
  if (2 <=? length parts)%nat && JS.truthyString date && negb (is_nan ratio)
     && (0 <? ratio)%float
  then Some (date, ratio) else None.

End LoaderSpec.

(** Writing an entry, if there is one, into a table. *)
Definition putEntry (table : gmap string float) (e : option (string * float))
    : gmap string float :=
  match e with
  | Some (k, v) => <[k := v]> table
  | None => table
  end.

(** The text consists of white space only. *)
Fixpoint allWhiteSpace (s : string) : bool :=
  match s with
  | EmptyString => true
  | String c s' => Text.isWhiteSpace c && allWhiteSpace s'
  end.

(** The text starts, respectively ends, with a character that is not white
    space. *)
Definition startsSolid (s : string) : bool :=
  match s with
  | String c _ => negb (Text.isWhiteSpace c)
  | EmptyString => false
  end.

Definition endsSolid (s : string) : bool := startsSolid (String.rev s).

(** A process restart: the in-memory ratio cache is back to its initial
    value, the storage keeps its rows. *)
Definition restarted (slvDefault gldDefault : float) (st : Calibrate.State)
    : Calibrate.State :=
  {| Calibrate.ratioCache := Calibrate.initialRatioCache slvDefault gldDefault;
     Calibrate.etf_ratios := Calibrate.etf_ratios st |}.

(** The backend answering the app's request, for parameters that need no
    URL escaping. *)
Definition backend (getTime : string -> option Z) (st : Server.State)
    (date metal : string) : App.Reply :=
  App.Answered (Server.historicalSpotHandler getTime st (Some date) (Some metal)).

Section FurtherScenarios.

Import JS Server.
Open Scope float_scope.

(** Gold records on the two days around 2024-04-19. *)
Definition aroundState : State :=
  {| spotPriceCache := initialSpotPriceCache;
     historicalGoldPrices :=
       <[ "2024-04-20" := 2400 ]> {[ "2024-04-18" := 2380 ]};
     historicalGoldSilverRatio := ∅ |}.

(** A gold feed: a numeric price, a price sent as text, a record without
    date. *)
Definition sampleFeed : list Loader.GoldRecord :=
  [ {| Loader.recordDate := Some "2024-04-18";
       Loader.recordPrice := Loader.JsonNumber 2380.25 |};
    {| Loader.recordDate := Some "2024-04-19";
       Loader.recordPrice := Loader.JsonText "2391.50" |};
    {| Loader.recordDate := None;
       Loader.recordPrice := Loader.JsonNumber 1 |} ].

(** The lines of a ratio file after its header: two rows, a line without
    comma, a row with ratio 0, the empty line after the last line feed. *)
Definition sampleLines : list string :=
  [ "2024-04-18,2380.25,28.2,84.4";
    " 2024-04-19 ,2391.50,28.3,84.5";
    "no data today";
    "2024-04-20,2400,0,0";
    "" ].

(** The ratio file: a header line and [sampleLines], joined by line feeds. *)
Definition sampleCsv : string :=
  foldl (fun text line => text +:+ String Text.newline line)
    "date,gold,silver,ratio" sampleLines.

(** A reply of the vision model: a JSON object in a tagged fence. *)
Definition quoteMark : string := String (Ascii.ascii_of_N 34) EmptyString.

Definition sampleObject : string :=
  "{" +:+ (quoteMark +:+ "ozt" +:+ quoteMark +:+ ": 1, "
           +:+ quoteMark +:+ "metal" +:+ quoteMark +:+ ": "
           +:+ quoteMark +:+ "silver" +:+ quoteMark) +:+ "}".

Definition lineFeed : string := String Text.newline EmptyString.

(** The app on its gold tab. *)
Definition goldTabApp : App.SpotState :=
  {| App.metalTab := "gold"; App.silverSpot := 29.1; App.goldSpot := 2410 |}.

End FurtherScenarios.

(** ** Facts about the JavaScript primitives *)

Section JSFacts.

Import JS.
Open Scope float_scope.

(** A positive number is truthy. *)
Lemma positive_truthyNumber (x : float) :
  (0 <? x) = true -> truthyNumber x = true.
Proof.
  unfold truthyNumber, is_zero, is_nan.
  rewrite FloatAxioms.ltb_spec, !FloatAxioms.eqb_spec.
  change (Prim2SF 0) with (S754_zero false).
  change (Prim2SF PrimFloat.zero) with (S754_zero false).
  destruct (Prim2SF x) as [s|s| |s m e]; simpl; try discriminate.
  - destruct s; simpl; discriminate || reflexivity.
  - destruct s; try discriminate. intros _.
    unfold SFeqb, SFcompare.
    rewrite Z.compare_refl, Pos.compare_cont_refl. reflexivity.
Qed.

Lemma positive_truthy (v : float) (o : option float) :
  o = Some v -> (0 <? v) = true -> truthy o = true /\ number o = v.
Proof. intros -> Hv. split; [by apply positive_truthyNumber|done]. Qed.

Lemma lowerAscii_idem c : lowerAscii (lowerAscii c) = lowerAscii c.
Proof. destruct c as [[] [] [] [] [] [] [] []]; reflexivity. Qed.

Lemma toLowerCase_idem s : toLowerCase (toLowerCase s) = toLowerCase s.
Proof.
  induction s as [|c s IH]; simpl; [done|]. by rewrite lowerAscii_idem, IH.
Qed.

Lemma truthyString_toLowerCase s : truthyString (toLowerCase s) = truthyString s.
Proof. by destruct s. Qed.

(** The handlers pass an already lower-cased [metalType] to
    [getHistoricalPrice], which lower-cases it again: nothing changes. *)
Lemma metalTypeOf_idem metal :
  Server.metalTypeOf (Some (Server.metalTypeOf metal)) = Server.metalTypeOf metal.
Proof.
  unfold Server.metalTypeOf.
  destruct metal as [[|c m]|]; simpl; try reflexivity.
  by rewrite lowerAscii_idem, toLowerCase_idem.
Qed.

(** The integer [toFixed] prints is the one nearest to the scaled value
    [m * 2^e * 10^digits], the larger one on a tie; for [e >= 0] the scaled
    value is itself an integer. *)
Lemma scaledRound_nearest digits m e :
  (e < 0)%Z ->
  let n := scaledRound digits m e in
  (2 * 10 ^ digits * Z.pos m - 2 ^ (- e) < 2 * n * 2 ^ (- e)
     <= 2 * 10 ^ digits * Z.pos m + 2 ^ (- e))%Z.
Proof.
  intros He n. subst n. unfold scaledRound.
  destruct (Z.leb_spec 0 e) as [?|_]; [lia|].
  assert (0 < 2 ^ (- e))%Z as Hpos by (apply Z.pow_pos_nonneg; lia).
  replace (1 - e)%Z with (Z.succ (- e)) by lia.
  rewrite Z.pow_succ_r by lia.
  set (D := (2 ^ (- e))%Z) in *.
  set (N := (2 * 10 ^ digits * Z.pos m + D)%Z).
  pose proof (Z.div_mod N (2 * D) ltac:(lia)) as Hdiv.
  pose proof (Z.mod_pos_bound N (2 * D) ltac:(lia)) as Hmod.
  nia.
Qed.

Lemma scaledRound_exact digits m e :
  (0 <= e)%Z -> scaledRound digits m e = (Z.pos m * 2 ^ e * 10 ^ digits)%Z.
Proof. intros He. unfold scaledRound. by destruct (Z.leb_spec 0 e); [|lia]. Qed.

Example toFixed_quotient : toFixed 2 (2391.5 / 84.5) = 28.3.
Proof. vm_compute. reflexivity. Qed.

Example toFixed_binary_tie : toFixed 2 1.005 = 1.
Proof. vm_compute. reflexivity. Qed.

Example toFixed_half : toFixed 0 2.5 = 3.
Proof. vm_compute. reflexivity. Qed.

Example toFixed_exact_tie : toFixed 2 0.125 = 0.13.
Proof. vm_compute. reflexivity. Qed.

Example toFixed_negative : toFixed 2 (-2.675) = -2.67.
Proof. vm_compute. reflexivity. Qed.

Example toFixed_large : toFixed 2 1e21 = 1e21.
Proof. vm_compute. reflexivity. Qed.

Example toFixed_small_negative : Prim2SF (toFixed 2 (-0.001)) = S754_zero true.
Proof. vm_compute. reflexivity. Qed.

Example toFixed_infinity : toFixed 2 infinity = infinity.
Proof. vm_compute. reflexivity. Qed.

Example dateTime_epoch : dateTime "1970-01-01" = Some 0%Z.
Proof. vm_compute. reflexivity. Qed.

Example dateTime_2024_04_19 : dateTime "2024-04-19" = Some 1713484800000%Z.
Proof. vm_compute. reflexivity. Qed.

Example dateTime_leap_day : dateTime "2024-02-29" = Some 1709164800000%Z.
Proof. vm_compute. reflexivity. Qed.

Example dateTime_bad_month : dateTime "2024-13-01" = None.
Proof. vm_compute. reflexivity. Qed.

Example toLowerCase_mixed : toLowerCase "GoLd" = "gold".
Proof. reflexivity. Qed.

Example testDatePattern_ok : testDatePattern "2024-04-19" = true.
Proof. reflexivity. Qed.

Example testDatePattern_short : testDatePattern "2024-4-19" = false.
Proof. reflexivity. Qed.

End JSFacts.

(** ** The nearest-date lookup *)

Section NearestFacts.

Import JS Server.

Variable getTime : string -> option Z.

Implicit Types (dataObj : gmap string float) (target : string).

Lemma sortedKeys_elem dataObj k : k ∈ sortedKeys dataObj <-> k ∈ dom dataObj.
Proof.
  unfold sortedKeys. rewrite merge_sort_Permutation. apply elem_of_elements.
Qed.

Lemma sortedKeys_sorted dataObj : StronglySorted String.le (sortedKeys dataObj).
Proof. apply StronglySorted_merge_sort; apply _. Qed.

Lemma elem_of_snoc (seen : list string) (x k : string) :
  k ∈ seen ++ [x] <-> k ∈ seen \/ k = x.
Proof. rewrite elem_of_app, list_elem_of_singleton. tauto. Qed.

(** The loop keeps the closest key seen so far, and the earliest one in
    sort order among equally close keys: a later key replaces it only when
    strictly closer. *)
Lemma scan_invariant dataObj target (dates : list string) :
  StronglySorted String.le dates ->
  scanInv getTime dataObj target dates
    (foldl (scanStep getTime dataObj (getTime target)) (None, Infinity) dates).
Proof.
  induction dates as [|x seen IH] using rev_ind; intros Hsorted.
  { simpl. intros k Hk. by apply elem_of_nil in Hk. }
  apply StronglySorted_app in Hsorted as (Hle & Hseen & _).
  specialize (IH Hseen). rewrite foldl_snoc.
  destruct (foldl _ _ seen) as [[n|] [|c]]; simpl in IH; try done.
  - destruct IH as (Hin & Hval & Hd & Hmin).
    unfold scanStep; simpl. fold (distance getTime x target).
    destruct (distance getTime x target) as [dx|] eqn:Hdx; simpl.
    + destruct (Z.ltb_spec dx c) as [Hlt|Hge]; simpl.
      * split_and!; [apply elem_of_snoc; by right|done|done|].
        intros k d' [Hk| ->]%elem_of_snoc Hk'.
        -- destruct (Hmin k d' Hk Hk'). split; lia.
        -- rewrite Hdx in Hk'. injection Hk' as <-. split; [lia|done].
      * split_and!; [apply elem_of_snoc; by left|done|done|].
        intros k d' [Hk| ->]%elem_of_snoc Hk'; [by apply Hmin|].
        rewrite Hdx in Hk'. injection Hk' as <-. split; [lia|].
        intros _. apply Hle; [done|]. by apply list_elem_of_singleton.
    + split_and!; [apply elem_of_snoc; by left|done|done|].
      intros k d' [Hk| ->]%elem_of_snoc Hk'; [by apply Hmin|]. congruence.
  - unfold scanStep; simpl. fold (distance getTime x target).
    destruct (distance getTime x target) as [dx|] eqn:Hdx; simpl.
    + split_and!; [apply elem_of_snoc; by right|done|done|].
      intros k d' [Hk| ->]%elem_of_snoc Hk'.
      * rewrite (IH k Hk) in Hk'. done.
      * rewrite Hdx in Hk'. injection Hk' as <-. done.
    + intros k [Hk| ->]%elem_of_snoc; [by apply IH|done].
Qed.

Lemma isNearest_unique dataObj target n1 d1 n2 d2 :
  isNearest getTime dataObj target n1 d1 ->
  isNearest getTime dataObj target n2 d2 ->
  n1 = n2 /\ d1 = d2.
Proof.
  intros [He1 Hd1 Hmin1] [He2 Hd2 Hmin2].
  destruct (Hmin1 (date n2) d2) as [H1 H2]; [apply elem_of_dom; eauto|done|].
  destruct (Hmin2 (date n1) d1) as [H3 H4]; [apply elem_of_dom; eauto|done|].
  assert (d1 = d2) as -> by lia. split; [|done].
  assert (date n1 = date n2) as Hdate by (apply (anti_symm String.le); auto).
  destruct n1, n2; simpl in *; subst. congruence.
Qed.

(** [findNearestValue] returns exactly the nearest entry, provided it lies
    within thirty days. *)
Lemma findNearestValue_Some dataObj target n :
  findNearestValue getTime dataObj target = Some n <->
  exists d, isNearest getTime dataObj target n d /\ (d <= thirtyDays)%Z.
Proof.
  unfold findNearestValue.
  pose proof (scan_invariant dataObj target _ (sortedKeys_sorted dataObj)) as Hinv.
  destruct (length (sortedKeys dataObj) =? 0)%nat eqn:Hlen.
  { apply Nat.eqb_eq, nil_length_inv in Hlen. split; [done|].
    intros (d & [He _ _] & _).
    assert (date n ∈ sortedKeys dataObj) as Hin
      by (apply sortedKeys_elem, elem_of_dom; eauto).
    rewrite Hlen in Hin. by apply elem_of_nil in Hin. }
  destruct (foldl _ _ _) as [[m|] [|c]]; simpl in *; try done.
  - destruct Hinv as (Hin & Hval & Hd & Hmin).
    apply sortedKeys_elem, elem_of_dom in Hin as [v Hv].
    rewrite Hv in Hval; simpl in Hval.
    assert (isNearest getTime dataObj target m c) as Hm.
    { split; [congruence|done|].
      intros k d' Hk. apply Hmin. by apply sortedKeys_elem. }
    destruct (Z.leb_spec c thirtyDays) as [Hle|Hgt].
    + split; [intros [= <-]; eauto|].
      intros (d & Hn & _). f_equal.
      by destruct (isNearest_unique _ _ _ _ _ _ Hm Hn).
    + split; [done|]. intros (d & Hn & Hd').
      destruct (isNearest_unique _ _ _ _ _ _ Hm Hn) as [_ ->]. lia.
  - split; [done|]. intros (d & [He' Hd'' _] & _).
    rewrite Hinv in Hd''; [done|]. apply sortedKeys_elem, elem_of_dom; eauto.
Qed.

(** [findNearestValue] returns [null] exactly when no key with a valid
    date lies within thirty days of the target. *)
Lemma findNearestValue_None dataObj target :
  findNearestValue getTime dataObj target = None <->
  allBeyondThirtyDays getTime dataObj target.
Proof.
  unfold findNearestValue, allBeyondThirtyDays.
  pose proof (scan_invariant dataObj target _ (sortedKeys_sorted dataObj)) as Hinv.
  destruct (length (sortedKeys dataObj) =? 0)%nat eqn:Hlen.
  { apply Nat.eqb_eq, nil_length_inv in Hlen. split; [|done].
    intros _ k d Hk. apply sortedKeys_elem in Hk. rewrite Hlen in Hk.
    by apply elem_of_nil in Hk. }
  destruct (foldl _ _ _) as [[m|] [|c]]; simpl in *; try done.
  - destruct Hinv as (Hin & Hval & Hd & Hmin).
    destruct (Z.leb_spec c thirtyDays) as [Hle|Hgt].
    + split; [done|]. intros Hall.
      apply sortedKeys_elem in Hin. specialize (Hall _ _ Hin Hd). lia.
    + split; [|done]. intros _ k d Hk Hkd.
      apply sortedKeys_elem in Hk. destruct (Hmin k d Hk Hkd). lia.
  - split; [|done]. intros _ k d Hk Hkd.
    apply sortedKeys_elem in Hk. rewrite (Hinv k Hk) in Hkd. done.
Qed.

(** C3.  The nearest-date lookup never returns an entry whose key is more
    than 30 days (in milliseconds) from the query date; and when every key
    is more than 30 days away (31 days or more, for calendar days) it
    returns the not-found value. *)
Theorem findNearestValue_within_thirty_days dataObj target :
  (forall n, findNearestValue getTime dataObj target = Some n ->
     dataObj !! date n = Some (value n) /\
     exists d, distance getTime (date n) target = Some d /\
               (d <= 30 * msPerDay)%Z) /\
  ((forall k d, k ∈ dom dataObj -> distance getTime k target = Some d ->
      (30 * msPerDay < d)%Z) ->
   findNearestValue getTime dataObj target = None).
Proof.
  split.
  - intros n (d & [He Hd _] & Hle)%findNearestValue_Some. eauto.
  - intros Hfar. by apply findNearestValue_None.
Qed.

End NearestFacts.

(** The lookup on a one-record table: thirty days away the record is
    returned, thirty-one days away it is not. *)
Lemma findNearestValue_within_thirty_days_witness :
  let dataObj : gmap string float := {[ "2024-04-19" := 2391.5%float ]} in
  (Server.findNearestValue JS.dateTime dataObj "2024-05-19"
     = Some {| Server.date := "2024-04-19"; Server.value := 2391.5%float |} /\
   distance JS.dateTime "2024-04-19" "2024-05-19" = Some (30 * JS.msPerDay)%Z) /\
  (distance JS.dateTime "2024-04-19" "2024-05-20" = Some (31 * JS.msPerDay)%Z /\
   Server.findNearestValue JS.dateTime dataObj "2024-05-20" = None).
Proof.
  intros dataObj.
  destruct (findNearestValue_within_thirty_days JS.dateTime dataObj "2024-05-20")
    as [_ Hfar].
  split; [split; vm_compute; reflexivity|].
  split; [vm_compute; reflexivity|].
  apply Hfar. intros k d Hk. unfold dataObj in Hk.
  rewrite dom_singleton_L in Hk. apply elem_of_singleton in Hk as ->.
  vm_compute. intros [= <-]. reflexivity.
Defined.

(** ** The historical price resolver *)

Section ResolverFacts.

Import JS Server.
Open Scope float_scope.

Variable getTime : string -> option Z.

Implicit Types (st : State) (date : string) (metal : option string).

(** The path of a gold query through [getHistoricalPrice]. *)
Lemma resolve_gold st date metal :
  metalTypeOf metal = "gold" ->
  getHistoricalPrice getTime st date metal =
    if truthy (historicalGoldPrices st !! date) then
      {| price := number (historicalGoldPrices st !! date);
         source := exact;
         note := "Exact daily price from freegoldapi.com" |}
    else
      match findNearestValue getTime (historicalGoldPrices st) date with
      | Some n => {| price := value n; source := nearest;
                     note := "Nearest available date: " +:+ Server.date n |}
      | None => ultimateFallback st "gold"
      end.
Proof.
  intros Hmetal. unfold getHistoricalPrice. rewrite Hmetal.
  unfold goldExact, silverFromExactGold, goldNearest, silverFromNearestGold.
  simpl.
  destruct (truthy (historicalGoldPrices st !! date)); [done|].
  by destruct (findNearestValue getTime (historicalGoldPrices st) date).
Qed.

(** The path of a silver query through [getHistoricalPrice]. *)
Lemma resolve_silver st date metal :
  metalTypeOf metal = "silver" ->
  getHistoricalPrice getTime st date metal =
    let goldPrice := historicalGoldPrices st !! date in
    let ratio := historicalGoldSilverRatio st !! date in
    if truthy goldPrice && truthy ratio then
      {| price := toFixed 2 (number goldPrice / number ratio);
         source := exact;
         note := "Calculated from exact gold price and gold/silver ratio" |}
    else if truthy goldPrice then
      match findNearestValue getTime (historicalGoldSilverRatio st) date with
      | Some nearestRatio =>
          {| price := toFixed 2 (number goldPrice / value nearestRatio);
             source := interpolated;
             note := "Gold price exact, ratio from " +:+ Server.date nearestRatio |}
      | None =>
          {| price := toFixed 2 (number goldPrice / 80);
             source := estimated;
             note := "Calculated from gold price with estimated ratio" |}
      end
    else
      match findNearestValue getTime (historicalGoldPrices st) date with
      | Some ng =>
          {| price :=
               toFixed 2
                 (value ng /
                  match findNearestValue getTime (historicalGoldSilverRatio st) date with
                  | Some nr => value nr
                  | None => 80
                  end);
             source := interpolated;
             note := "Estimated from " +:+ Server.date ng +:+ " gold price" |}
      | None => ultimateFallback st "silver"
      end.
Proof.
  intros Hmetal. unfold getHistoricalPrice. rewrite Hmetal.
  unfold goldExact, silverFromExactGold, goldNearest, silverFromNearestGold.
  simpl.
  destruct (truthy (historicalGoldPrices st !! date)); simpl.
  - destruct (truthy (historicalGoldSilverRatio st !! date)); [done|].
    by destruct (findNearestValue getTime (historicalGoldSilverRatio st) date).
  - by destruct (findNearestValue getTime (historicalGoldPrices st) date).
Qed.

(** Any other metal name skips every block and reaches the final
    [return], whose ternary picks the gold price. *)
Lemma resolve_other st date metal :
  metalTypeOf metal <> "gold" -> metalTypeOf metal <> "silver" ->
  getHistoricalPrice getTime st date metal =
    {| price := gold (spotPriceCache st);
       source := fallback;
       note := "Historical data unavailable - using current price" |}.
Proof.
  intros Hgold Hsilver. unfold getHistoricalPrice.
  unfold goldExact, silverFromExactGold, goldNearest, silverFromNearestGold,
    ultimateFallback.
  apply String.eqb_neq in Hgold, Hsilver. by rewrite Hgold, Hsilver.
Qed.

(** C1.  For a date with an exact (positive) gold record and an exact
    (positive) ratio record, a silver query returns the quotient
    [gold[d] / ratio[d]] rounded to 2 decimal places, with source
    [exact]. *)
Theorem getHistoricalPrice_silver_exact st date metal goldPrice ratio :
  metalTypeOf metal = "silver" ->
  historicalGoldPrices st !! date = Some goldPrice ->
  (0 <? goldPrice) = true ->
  historicalGoldSilverRatio st !! date = Some ratio ->
  (0 <? ratio) = true ->
  price (getHistoricalPrice getTime st date metal) = toFixed 2 (goldPrice / ratio) /\
  source (getHistoricalPrice getTime st date metal) = exact.
Proof.
  intros Hmetal Hgold Hg Hratio Hr.
  rewrite (resolve_silver _ _ _ Hmetal); cbv zeta.
  destruct (positive_truthy _ _ Hgold Hg) as [-> ->].
  destruct (positive_truthy _ _ Hratio Hr) as [-> ->].
  done.
Qed.

(** C4.  For a date whose gold record holds a positive price, a gold query
    returns that stored value unchanged, with source [exact]. *)
Theorem getHistoricalPrice_gold_exact st date metal goldPrice :
  metalTypeOf metal = "gold" ->
  historicalGoldPrices st !! date = Some goldPrice ->
  (0 <? goldPrice) = true ->
  price (getHistoricalPrice getTime st date metal) = goldPrice /\
  source (getHistoricalPrice getTime st date metal) = exact.
Proof.
  intros Hmetal Hgold Hg.
  rewrite (resolve_gold _ _ _ Hmetal).
  by destruct (positive_truthy _ _ Hgold Hg) as [-> ->].
Qed.

(** C2, as amended.  For a silver query: with an exact (positive) gold
    record and no exact ratio, the price is [gold[d]] divided by the nearest
    ratio within 30 days, rounded to 2 decimal places, tagged
    [interpolated], or [gold[d] / 80] rounded to 2 decimal places, tagged
    [estimated], when no ratio lies within 30 days; with no exact gold
    record but a gold record within 30 days, the price is the nearest gold
    price divided by the nearest ratio within 30 days (else by 80), rounded
    to 2 decimal places, tagged [interpolated]. *)
Theorem getHistoricalPrice_silver_derived st date metal :
  metalTypeOf metal = "silver" ->
  let r := getHistoricalPrice getTime st date metal in
  let golds := historicalGoldPrices st in
  let ratios := historicalGoldSilverRatio st in
  (forall goldPrice,
     golds !! date = Some goldPrice -> (0 <? goldPrice) = true ->
     truthy (ratios !! date) = false ->
     (forall nr d, isNearest getTime ratios date nr d -> (d <= 30 * msPerDay)%Z ->
        price r = toFixed 2 (goldPrice / value nr) /\ source r = interpolated) /\
     (allBeyondThirtyDays getTime ratios date ->
        price r = toFixed 2 (goldPrice / 80) /\ source r = estimated)) /\
  (truthy (golds !! date) = false ->
   forall ng dg, isNearest getTime golds date ng dg -> (dg <= 30 * msPerDay)%Z ->
     (forall nr d, isNearest getTime ratios date nr d -> (d <= 30 * msPerDay)%Z ->
        price r = toFixed 2 (value ng / value nr) /\ source r = interpolated) /\
     (allBeyondThirtyDays getTime ratios date ->
        price r = toFixed 2 (value ng / 80) /\ source r = interpolated)).
Proof.
  intros Hmetal r golds ratios. subst r.
  rewrite (resolve_silver _ _ _ Hmetal); cbv zeta. fold golds ratios.
  split.
  - intros goldPrice Hgold Hg Hnoratio.
    destruct (positive_truthy _ _ Hgold Hg) as [-> ->].
    rewrite Hnoratio; simpl. split.
    + intros nr d Hnr Hd.
      assert (findNearestValue getTime ratios date = Some nr) as ->
        by (apply findNearestValue_Some; eauto).
      done.
    + intros Hfar. apply findNearestValue_None in Hfar. by rewrite Hfar.
  - intros Hnogold ng dg Hng Hdg. rewrite Hnogold; simpl.
    assert (findNearestValue getTime golds date = Some ng) as ->
      by (apply findNearestValue_Some; eauto).
    split.
    + intros nr d Hnr Hd.
      assert (findNearestValue getTime ratios date = Some nr) as ->
        by (apply findNearestValue_Some; eauto).
      done.
    + intros Hfar. apply findNearestValue_None in Hfar. by rewrite Hfar.
Qed.

(** C5.  For gold and silver the resolver always returns a result.  The
    result is tagged [fallback] exactly when the date has no exact gold
    record and no gold record within 30 days; it then carries the price of
    the live spot cache, which before any fetch is 30.50 for silver and
    2650.00 for gold. *)
Theorem getHistoricalPrice_total st date metal :
  metalTypeOf metal = "gold" \/ metalTypeOf metal = "silver" ->
  exists r,
    getHistoricalPrice getTime st date metal = r /\
    (source r = fallback <->
       truthy (historicalGoldPrices st !! date) = false /\
       findNearestValue getTime (historicalGoldPrices st) date = None) /\
    (source r = fallback ->
       price r = (if String.eqb (metalTypeOf metal) "silver"
                  then silver (spotPriceCache st)
                  else gold (spotPriceCache st)) /\
       (spotPriceCache st = initialSpotPriceCache ->
        price r = if String.eqb (metalTypeOf metal) "silver"
                  then 30.50 else 2650.00)).
Proof.
  intros Hmetal. eexists; split; [reflexivity|].
  destruct Hmetal as [Hmetal|Hmetal].
  - rewrite (resolve_gold _ _ _ Hmetal), Hmetal; simpl.
    destruct (truthy (historicalGoldPrices st !! date)); simpl.
    { split; [split; [done|by intros [? _]]|done]. }
    destruct (findNearestValue getTime (historicalGoldPrices st) date); simpl.
    { split; [split; [done|by intros [_ ?]]|done]. }
    split; [done|]. intros _. split; [done|]. by intros ->.
  - rewrite (resolve_silver _ _ _ Hmetal), Hmetal; cbv zeta; simpl.
    destruct (truthy (historicalGoldPrices st !! date)); simpl.
    { destruct (truthy (historicalGoldSilverRatio st !! date)); simpl.
      { split; [split; [done|by intros [? _]]|done]. }
      destruct (findNearestValue getTime (historicalGoldSilverRatio st) date);
        simpl; (split; [split; [done|by intros [? _]]|done]). }
    destruct (findNearestValue getTime (historicalGoldPrices st) date); simpl.
    { split; [split; [done|by intros [_ ?]]|done]. }
    split; [done|]. intros _. split; [done|]. by intros ->.
Qed.

End ResolverFacts.

(** ** The price endpoints *)

Section EndpointFacts.

Import JS Server.
Open Scope float_scope.

Variable getTime : string -> option Z.

Lemma spotPricesHandler_cases cache now later fetched :
  spotPricesHandler cache now later fetched =
    if cacheFresh cache now then
      ({| success := true; silverOut := silver cache; goldOut := gold cache;
          timestampOut := default 0%Z (timestamp cache);
          cached := Some true; noteOut := None |}, cache)
    else
      match liveQuote fetched with
      | Some (s, g) =>
          ({| success := true; silverOut := s; goldOut := g;
              timestampOut := later; cached := None; noteOut := None |},
           {| silver := s; gold := g; timestamp := Some now |})
      | None => (cachedResponse cache later, cache)
      end.
Proof.
  unfold spotPricesHandler, liveQuote.
  destruct (cacheFresh cache now); [done|].
  destruct fetched as [| | |prices]; try done.
  by destruct (extractPrices prices) as [[s|] [g|]].
Qed.

(** C6.  With a stale cache and a live fetch that fails, times out or
    yields a partial or malformed body, the endpoint answers with
    [success: true], the previously cached silver and gold values,
    [cached: true] and a note, and leaves the cache as it was; the cache
    changes only on a fetch that delivered both silver and gold. *)
Theorem spotPricesHandler_stale_fetch_failure cache now later fetched :
  cacheFresh cache now = false ->
  liveQuote fetched = None ->
  spotPricesHandler cache now later fetched =
    ({| success := true;
        silverOut := silver cache;
        goldOut := gold cache;
        timestampOut := later;
        cached := Some true;
        noteOut := Some "Using cached prices - live API temporarily unavailable" |},
     cache) /\
  (forall cache0 now0 later0 fetched0,
     (spotPricesHandler cache0 now0 later0 fetched0).2 <> cache0 ->
     cacheFresh cache0 now0 = false /\
     exists s g, liveQuote fetched0 = Some (s, g) /\
       (spotPricesHandler cache0 now0 later0 fetched0).2
         = {| silver := s; gold := g; timestamp := Some now0 |}).
Proof.
  intros Hstale Hfail. split.
  - by rewrite spotPricesHandler_cases, Hstale, Hfail.
  - intros cache0 now0 later0 fetched0. rewrite spotPricesHandler_cases.
    destruct (cacheFresh cache0 now0); [done|].
    destruct (liveQuote fetched0) as [[s g]|]; [|done].
    intros _. eauto.
Qed.

(** The loop of the bulk endpoint, for a metal name that is neither gold
    nor silver: every well-formed date is mapped to the cached gold
    price. *)
Lemma bulk_loop_other st metalType (ds : list string)
    (results : gmap string float) (d : string) :
  metalTypeOf (Some metalType) <> "gold" ->
  metalTypeOf (Some metalType) <> "silver" ->
  foldl (bulkStep getTime st metalType) results ds !! d =
    if bool_decide (d ∈ ds) && testDatePattern d
    then Some (gold (spotPriceCache st))
    else results !! d.
Proof.
  intros Hgold Hsilver. revert results.
  induction ds as [|x ds IH]; intros results; simpl.
  { reflexivity. }
  rewrite IH. unfold bulkStep.
  rewrite (resolve_other getTime st x _ Hgold Hsilver); simpl.
  destruct (decide (d = x)) as [->|Hne].
  - rewrite (bool_decide_eq_true_2 (x ∈ x :: ds)); [|by left].
    destruct (testDatePattern x); simpl.
    + destruct (bool_decide (x ∈ ds)); [done|]. by rewrite lookup_insert_eq.
    + by destruct (bool_decide (x ∈ ds)).
  - assert (bool_decide (d ∈ x :: ds) = bool_decide (d ∈ ds)) as ->.
    { apply bool_decide_ext. rewrite elem_of_cons.
      split; [by intros [?|?]|by right]. }
    destruct (bool_decide (d ∈ ds) && testDatePattern d); [done|].
    destruct (testDatePattern x); [|done]. by rewrite lookup_insert_ne.
Qed.

(** C10.  The bulk endpoint does not validate [metal]: for a metal name
    that lower-cases to neither gold nor silver the request succeeds, and
    every well-formed date among the first 100 is mapped to the cached gold
    spot price, whatever the historical tables hold. *)
Theorem bulkHandler_unvalidated_metal st body ds :
  dates body = Some ds ->
  metalTypeOf (metal body) <> "gold" ->
  metalTypeOf (metal body) <> "silver" ->
  exists results,
    bulkHandler getTime st body =
      Success {| bulkMetal := metalTypeOf (metal body); prices := results |} /\
    forall d,
      results !! d =
        if bool_decide (d ∈ take 100 ds) && testDatePattern d
        then Some (gold (spotPriceCache st))
        else None.
Proof.
  intros Hdates Hgold Hsilver. unfold bulkHandler. rewrite Hdates.
  eexists; split; [reflexivity|]. intros d.
  rewrite bulk_loop_other; [|by rewrite metalTypeOf_idem..].
  by rewrite lookup_empty.
Qed.

(** The single-date endpoint, by contrast, rejects such a metal name. *)
Lemma historicalSpotHandler_rejects_other_metal st d metal :
  truthyString d = true -> testDatePattern d = true ->
  metalTypeOf metal <> "gold" -> metalTypeOf metal <> "silver" ->
  historicalSpotHandler getTime st (Some d) metal = BadRequest InvalidMetal.
Proof.
  intros Hd Hpat Hgold Hsilver. unfold historicalSpotHandler.
  rewrite Hd, Hpat; simpl.
  apply String.eqb_neq in Hgold, Hsilver. by rewrite Hgold, Hsilver.
Qed.

End EndpointFacts.

(** ** ETF ratio calibration *)

Section CalibrateFacts.

Import Calibrate.
Open Scope float_scope.

Variables DEFAULT_SLV_RATIO DEFAULT_GLD_RATIO : float.

#[local] Instance laterFirst_total : Total laterFirst.
Proof. intros a b. unfold laterFirst. apply (total String.le). Qed.

#[local] Instance laterFirst_trans : Transitive laterFirst.
Proof. intros a b c. unfold laterFirst. intros ??. by etrans. Qed.

(** The row the storage query selects: the one with the latest date that
    is on or before the requested date. *)
Lemma selectLatest_Some table dateString k row :
  selectLatest table dateString = Some (k, row) <->
  table !! k = Some row /\ String.le k dateString /\
  forall k', k' ∈ dom table -> String.le k' dateString -> String.le k' k.
Proof.
  unfold selectLatest.
  set (rows := filter _ (map_to_list table)).
  assert (forall r, r ∈ rows <-> table !! r.1 = Some r.2 /\ String.le r.1 dateString)
    as Hrows.
  { intros [k0 r0]. unfold rows. rewrite list_elem_of_filter, elem_of_map_to_list.
    simpl. tauto. }
  pose proof (StronglySorted_merge_sort laterFirst rows) as Hsorted.
  pose proof (merge_sort_Permutation laterFirst rows) as Hperm.
  destruct (merge_sort laterFirst rows) as [|[k1 r1] rest]; simpl.
  - split; [done|]. intros (Hrow & Hle & _).
    assert ((k, row) ∈ rows) as Hin by (by apply Hrows).
    rewrite <- Hperm in Hin. by apply elem_of_nil in Hin.
  - apply StronglySorted_cons in Hsorted as [Hhead _].
    assert ((k1, r1) ∈ rows) as [Hrow1 Hle1]%Hrows
      by (rewrite <- Hperm; by left).
    simpl in Hrow1, Hle1.
    assert (forall k' r', table !! k' = Some r' -> String.le k' dateString ->
              String.le k' k1) as Hmax.
    { intros k' r' Hrow' Hle'.
      assert ((k', r') ∈ (k1, r1) :: rest) as Hin
        by (rewrite Hperm; by apply Hrows).
      apply elem_of_cons in Hin as [[= -> ->]|Hin]; [done|].
      rewrite Forall_forall in Hhead. by apply (Hhead _ Hin). }
    split.
    + intros [= <- <-]. split_and!; [done..|].
      intros k' [r' Hrow']%elem_of_dom. by apply (Hmax k' r').
    + intros (Hrow & Hle & Hmost).
      assert (k = k1) as ->.
      { apply (anti_symm String.le); [by apply (Hmax k row)|].
        apply Hmost; [apply elem_of_dom; eauto|done]. }
      congruence.
Qed.

Lemma selectLatest_None table dateString :
  selectLatest table dateString = None <->
  forall k, k ∈ dom table -> ~ String.le k dateString.
Proof.
  split.
  - intros Hnone k [row Hrow]%elem_of_dom Hle.
    assert (exists k0, k0 ∈ dom table /\ String.le k0 dateString) as Hex
      by (exists k; split; [apply elem_of_dom; eauto|done]).
    clear k row Hrow Hle. revert Hnone.
    unfold selectLatest.
    set (rows := filter _ (map_to_list table)).
    pose proof (merge_sort_Permutation laterFirst rows) as Hperm.
    destruct (merge_sort laterFirst rows) as [|r rest]; simpl; [|by destruct r].
    intros _. destruct Hex as (k0 & [r0 Hr0]%elem_of_dom & Hle0).
    assert ((k0, r0) ∈ rows) as Hin.
    { unfold rows. rewrite list_elem_of_filter, elem_of_map_to_list. done. }
    rewrite <- Hperm in Hin. by apply elem_of_nil in Hin.
  - intros Hnone.
    destruct (selectLatest table dateString) as [[k row]|] eqn:Hsel; [|done].
    apply selectLatest_Some in Hsel as (Hrow & Hle & _).
    destruct (Hnone k); [apply elem_of_dom; eauto|done].
Qed.

(** C7.  Whenever either ETF quote is unavailable, [calibrateRatios]
    returns [null] and leaves both the in-memory ratio cache and the stored
    calibration records exactly as they were. *)
Theorem calibrateRatios_quote_unavailable st w currentGoldSpot currentSilverSpot :
  quoteUnavailable w ->
  calibrateRatios st w currentGoldSpot currentSilverSpot = (None, st).
Proof.
  unfold quoteUnavailable, calibrateRatios.
  destruct (quotes w) as [q|]; [|done].
  destruct (slv q), (gld q); intros [?|?]; done.
Qed.


(** C9.  [getRatioForDate] resolves in order: the cached ratios when the
    date is the cached date; otherwise, with the storage answering, the
    ratios of the stored record with the latest date on or before the
    requested one, never a later record; and the default ratios when there
    is no such record. *)
Theorem getRatioForDate_order st queryFails dateString :
  let result :=
    getRatioForDate DEFAULT_SLV_RATIO DEFAULT_GLD_RATIO st queryFails dateString in
  (cacheDate (ratioCache st) = Some dateString ->
     result = {| ratioSlv := cacheSlvRatio (ratioCache st);
                 ratioGld := cacheGldRatio (ratioCache st) |}) /\
  (cacheDate (ratioCache st) <> Some dateString ->
   forall table k row,
     etf_ratios st = Some table -> queryFails = false ->
     table !! k = Some row -> String.le k dateString ->
     (forall k', k' ∈ dom table -> String.le k' dateString -> String.le k' k) ->
     result = {| ratioSlv := JS.parseFloat (slv_ratio row);
                 ratioGld := JS.parseFloat (gld_ratio row) |}) /\
  (cacheDate (ratioCache st) <> Some dateString ->
   (forall table k, etf_ratios st = Some table -> k ∈ dom table ->
      ~ String.le k dateString) ->
   result = {| ratioSlv := DEFAULT_SLV_RATIO; ratioGld := DEFAULT_GLD_RATIO |}).
Proof.
  intros result. subst result. unfold getRatioForDate.
  split_and!.
  - intros Hhit. by rewrite decide_True.
  - intros Hmiss table k row Htable -> Hrow Hle Hmost.
    rewrite decide_False, Htable by done.
    assert (selectLatest table dateString = Some (k, row)) as ->
      by (by apply selectLatest_Some).
    done.
  - intros Hmiss Hnone. rewrite decide_False by done.
    destruct (etf_ratios st) as [table|] eqn:Htable; [|done].
    destruct queryFails; [done|].
    assert (selectLatest table dateString = None) as ->
      by (apply selectLatest_None; eauto).
    done.
Qed.

End CalibrateFacts.

(** ** The scenarios of the specification, evaluated *)

(** The scenario of the specification for the [nearest] tier: no record for
    2024-04-20, the record of the day before is returned. *)
Example getHistoricalPrice_gold_nearest_day :
  Server.getHistoricalPrice JS.dateTime sameDayState "2024-04-20" (Some "gold")
  = {| Server.price := 2391.50%float;
       Server.source := Server.nearest;
       Server.note := "Nearest available date: 2024-04-19" |}.
Proof. vm_compute. reflexivity. Qed.

(** Two records equally far from the target: the earlier key wins. *)
Example findNearestValue_tie :
  Server.findNearestValue JS.dateTime
    (<[ "2024-04-20" := 2400%float ]> {[ "2024-04-18" := 2380%float ]})
    "2024-04-19"
  = Some {| Server.date := "2024-04-18"; Server.value := 2380%float |}.
Proof. vm_compute. reflexivity. Qed.

(** A target that is not a calendar date matches nothing. *)
Example findNearestValue_invalid_target :
  Server.findNearestValue JS.dateTime {[ "2024-04-19" := 2391.50%float ]}
    "2024-13-45"
  = None.
Proof. vm_compute. reflexivity. Qed.

(** A live fetch that delivers both prices replaces the stale cache. *)
Example spotPricesHandler_refresh :
  (Server.spotPricesHandler tenMinutesOld 1713485400000 1713485400123
     (Server.Body (Server.PricesObject (Some 28.9%float) (Some 2402.1%float)))).2
  = {| Server.silver := 28.9%float; Server.gold := 2402.1%float;
       Server.timestamp := Some 1713485400000%Z |}.
Proof. vm_compute. reflexivity. Qed.

(** The concrete scenario of C1: gold 2391.50 and ratio 84.5 on 2024-04-19
    give silver 28.30, tagged [exact]. *)
Lemma getHistoricalPrice_silver_exact_witness :
  let r := Server.getHistoricalPrice JS.dateTime sameDayState
             "2024-04-19" (Some "silver") in
  (Server.historicalGoldPrices sameDayState !! "2024-04-19" = Some 2391.50%float /\
   Server.historicalGoldSilverRatio sameDayState !! "2024-04-19" = Some 84.5%float) /\
  Server.price r = 28.30%float /\ Server.source r = Server.exact.
Proof.
  intros r.
  assert (Server.historicalGoldPrices sameDayState !! "2024-04-19"
          = Some 2391.50%float) as Hgold by (vm_compute; reflexivity).
  assert (Server.historicalGoldSilverRatio sameDayState !! "2024-04-19"
          = Some 84.5%float) as Hratio by (vm_compute; reflexivity).
  destruct (getHistoricalPrice_silver_exact JS.dateTime sameDayState
              "2024-04-19" (Some "silver") _ _
              eq_refl Hgold eq_refl Hratio eq_refl) as [Hprice Hsource].
  split; [done|]. split; [|exact Hsource].
  unfold r. rewrite Hprice. vm_compute. reflexivity.
Defined.

(** A gold query on the day of the record returns the stored 2391.50. *)
Lemma getHistoricalPrice_gold_exact_witness :
  let r := Server.getHistoricalPrice JS.dateTime sameDayState
             "2024-04-19" (Some "GOLD") in
  Server.historicalGoldPrices sameDayState !! "2024-04-19" = Some 2391.50%float /\
  Server.price r = 2391.50%float /\ Server.source r = Server.exact.
Proof.
  intros r.
  assert (Server.historicalGoldPrices sameDayState !! "2024-04-19"
          = Some 2391.50%float) as Hgold by (vm_compute; reflexivity).
  split; [done|].
  exact (getHistoricalPrice_gold_exact JS.dateTime sameDayState
           "2024-04-19" (Some "GOLD") _ eq_refl Hgold eq_refl).
Defined.

(** C2 as stated fails: with gold 2391.50 on 2024-04-19 and the nearest
    ratio 84.5 one day earlier, the resolver returns 28.3, tagged
    [interpolated], which is not the quotient 2391.50 / 84.5 itself
    (28.301775147928993) but that quotient rounded to 2 decimal places. *)
Lemma getHistoricalPrice_silver_unrounded_counterexample :
  let r := Server.getHistoricalPrice JS.dateTime nearbyRatioState
             "2024-04-19" (Some "silver") in
  Server.historicalGoldPrices nearbyRatioState !! "2024-04-19" = Some 2391.50%float /\
  Server.historicalGoldSilverRatio nearbyRatioState !! "2024-04-19" = None /\
  Server.findNearestValue JS.dateTime
    (Server.historicalGoldSilverRatio nearbyRatioState) "2024-04-19"
    = Some {| Server.date := "2024-04-18"; Server.value := 84.5%float |} /\
  Server.source r = Server.interpolated /\
  Server.price r = 28.3%float /\
  Server.price r <> (2391.50 / 84.5)%float.
Proof.
  intros r. split_and!; try (vm_compute; reflexivity).
  intros Heq. apply (f_equal Prim2SF) in Heq. vm_compute in Heq. discriminate.
Qed.

(** The three derived silver tiers on concrete tables: exact gold with the
    ratio of the day before, exact gold with no ratio data, and the gold
    record of the day before with the ratio two days before. *)
Lemma getHistoricalPrice_silver_derived_witness :
  (let r := Server.getHistoricalPrice JS.dateTime nearbyRatioState
              "2024-04-19" (Some "silver") in
   Server.price r = 28.3%float /\ Server.source r = Server.interpolated) /\
  (let r := Server.getHistoricalPrice JS.dateTime noRatioState
              "2024-04-19" (Some "silver") in
   Server.price r = 29.89%float /\ Server.source r = Server.estimated) /\
  (let r := Server.getHistoricalPrice JS.dateTime nearbyRatioState
              "2024-04-20" (Some "silver") in
   Server.price r = 28.3%float /\ Server.source r = Server.interpolated).
Proof.
  assert (forall st (date : string) n,
            Server.findNearestValue JS.dateTime st date = Some n ->
            exists d, isNearest JS.dateTime st date n d /\ (d <= 30 * JS.msPerDay)%Z)
    as Hnearest by (intros st date n; apply findNearestValue_Some).
  split_and!.
  - destruct (getHistoricalPrice_silver_derived JS.dateTime nearbyRatioState
                "2024-04-19" (Some "silver") eq_refl) as [Hexact _].
    destruct (Hexact 2391.50%float) as [Hnear _];
      [vm_compute; reflexivity..|].
    destruct (Hnearest (Server.historicalGoldSilverRatio nearbyRatioState)
                "2024-04-19"
                {| Server.date := "2024-04-18"; Server.value := 84.5%float |})
      as (d & Hn & Hd); [vm_compute; reflexivity|].
    destruct (Hnear _ _ Hn Hd) as [Hprice Hsource].
    split; [|exact Hsource]. rewrite Hprice. vm_compute. reflexivity.
  - destruct (getHistoricalPrice_silver_derived JS.dateTime noRatioState
                "2024-04-19" (Some "silver") eq_refl) as [Hexact _].
    destruct (Hexact 2391.50%float) as [_ Hfar];
      [vm_compute; reflexivity..|].
    destruct Hfar as [Hprice Hsource].
    { intros k d Hk. simpl in Hk. rewrite dom_empty_L in Hk.
      by apply elem_of_empty in Hk. }
    split; [|exact Hsource]. rewrite Hprice. vm_compute. reflexivity.
  - destruct (getHistoricalPrice_silver_derived JS.dateTime nearbyRatioState
                "2024-04-20" (Some "silver") eq_refl) as [_ Hnogold].
    destruct (Hnearest (Server.historicalGoldPrices nearbyRatioState)
                "2024-04-20"
                {| Server.date := "2024-04-19"; Server.value := 2391.50%float |})
      as (dg & Hng & Hdg); [vm_compute; reflexivity|].
    destruct (Hnearest (Server.historicalGoldSilverRatio nearbyRatioState)
                "2024-04-20"
                {| Server.date := "2024-04-18"; Server.value := 84.5%float |})
      as (d & Hn & Hd); [vm_compute; reflexivity|].
    destruct (Hnogold eq_refl _ _ Hng Hdg) as [Hnear _].
    destruct (Hnear _ _ Hn Hd) as [Hprice Hsource].
    split; [|exact Hsource]. rewrite Hprice. vm_compute. reflexivity.
Defined.

(** With no historical data and the seeded cache, gold resolves to 2650.00
    and silver to 30.50, both tagged [fallback]. *)
Lemma getHistoricalPrice_total_witness :
  (let r := Server.getHistoricalPrice JS.dateTime emptyState
              "2024-04-19" (Some "gold") in
   Server.price r = 2650.00%float /\ Server.source r = Server.fallback) /\
  (let r := Server.getHistoricalPrice JS.dateTime emptyState
              "2024-04-19" None in
   Server.price r = 30.50%float /\ Server.source r = Server.fallback).
Proof.
  split.
  - destruct (getHistoricalPrice_total JS.dateTime emptyState "2024-04-19"
                (Some "gold") (or_introl eq_refl)) as (r & <- & Hiff & Hprice).
    assert (Server.source (Server.getHistoricalPrice JS.dateTime emptyState
                             "2024-04-19" (Some "gold")) = Server.fallback)
      as Hsource by (apply Hiff; split; vm_compute; reflexivity).
    split; [|exact Hsource]. by apply (Hprice Hsource).
  - destruct (getHistoricalPrice_total JS.dateTime emptyState "2024-04-19"
                None (or_intror eq_refl)) as (r & <- & Hiff & Hprice).
    assert (Server.source (Server.getHistoricalPrice JS.dateTime emptyState
                             "2024-04-19" None) = Server.fallback)
      as Hsource by (apply Hiff; split; vm_compute; reflexivity).
    split; [|exact Hsource]. by apply (Hprice Hsource).
Defined.

(** The concrete scenario of C6: a cache fetched ten minutes ago and a live
    fetch that fails. *)
Lemma spotPricesHandler_stale_fetch_failure_witness :
  Server.cacheFresh tenMinutesOld 1713485400000 = false /\
  liveQuote Server.FetchRejected = None /\
  Server.spotPricesHandler tenMinutesOld 1713485400000 1713485400123
    Server.FetchRejected
  = ({| Server.success := true;
        Server.silverOut := 28.25%float;
        Server.goldOut := 2391.50%float;
        Server.timestampOut := 1713485400123;
        Server.cached := Some true;
        Server.noteOut :=
          Some "Using cached prices - live API temporarily unavailable" |},
     tenMinutesOld).
Proof.
  split; [reflexivity|]. split; [reflexivity|].
  exact (proj1 (spotPricesHandler_stale_fetch_failure tenMinutesOld
                  1713485400000 1713485400123 Server.FetchRejected
                  eq_refl eq_refl)).
Defined.

(** A bulk request for platinum on a day with an exact gold record of
    2391.50: the request succeeds and the day is mapped to the cached gold
    spot price 2650.00; the malformed entry is skipped. *)
Lemma bulkHandler_unvalidated_metal_witness :
  let body := {| Server.dates := Some ["2024-04-19"; "19 April 2024"];
                 Server.metal := Some "Platinum" |} in
  exists results,
    Server.bulkHandler JS.dateTime sameDayState body
      = Server.Success {| Server.bulkMetal := "platinum";
                          Server.prices := results |} /\
    results !! "2024-04-19" = Some 2650.00%float /\
    results !! "19 April 2024" = None.
Proof.
  intros body.
  destruct (bulkHandler_unvalidated_metal JS.dateTime sameDayState body
              ["2024-04-19"; "19 April 2024"] eq_refl)
    as (results & Hresp & Hlookup); [by vm_compute..|].
  exists results. split; [exact Hresp|].
  split; rewrite Hlookup; reflexivity.
Defined.

(** A calibration without the SLV quote changes nothing. *)
Lemma calibrateRatios_quote_unavailable_witness :
  quoteUnavailable slvMissing /\
  Calibrate.calibrateRatios calibratedState slvMissing 2650 30.5
    = (None, calibratedState).
Proof.
  assert (quoteUnavailable slvMissing) as Hmissing by (left; reflexivity).
  split; [exact Hmissing|].
  exact (calibrateRatios_quote_unavailable calibratedState slvMissing
           2650 30.5 Hmissing).
Defined.


(** The three steps of [getRatioForDate] on concrete data: the cached date,
    a date between two stored records (the earlier record applies, the later
    one does not), and a date before every record. *)
Lemma getRatioForDate_order_witness :
  Calibrate.getRatioForDate sampleSlvDefault sampleGldDefault
    calibratedState false "2024-04-21"
  = {| Calibrate.ratioSlv := 0.93%float; Calibrate.ratioGld := 0.094%float |} /\
  Calibrate.getRatioForDate sampleSlvDefault sampleGldDefault
    calibratedState false "2024-04-20"
  = {| Calibrate.ratioSlv := 0.921%float; Calibrate.ratioGld := 0.0931%float |} /\
  Calibrate.getRatioForDate sampleSlvDefault sampleGldDefault
    calibratedState false "2024-04-18"
  = {| Calibrate.ratioSlv := sampleSlvDefault;
       Calibrate.ratioGld := sampleGldDefault |}.
Proof.
  assert (forall k (d : string),
            k ∈ dom (<[ "2024-04-19" := sampleRow 0.921 0.0931 ]>
                       ({[ "2024-04-22" := sampleRow 0.925 0.0935 ]}
                          : gmap string Calibrate.EtfRatioRow)) ->
            k = "2024-04-19" \/ k = "2024-04-22") as Hkeys.
  { intros k _. rewrite dom_insert_L, dom_singleton_L.
    intros [->%elem_of_singleton| ->%elem_of_singleton]%elem_of_union; auto. }
  split_and!.
  - exact (proj1 (getRatioForDate_order sampleSlvDefault sampleGldDefault
                    calibratedState false "2024-04-21") eq_refl).
  - refine (proj1 (proj2 (getRatioForDate_order sampleSlvDefault sampleGldDefault
                            calibratedState false "2024-04-20"))
              _ _ "2024-04-19" (sampleRow 0.921 0.0931) eq_refl eq_refl _ _ _).
    + by intros [= ?].
    + vm_compute. reflexivity.
    + vm_compute. exact I.
    + intros k' [-> | ->]%(Hkeys k' "2024-04-20") Hle; vm_compute; [exact I|].
      vm_compute in Hle. exact Hle.
  - refine (proj2 (proj2 (getRatioForDate_order sampleSlvDefault sampleGldDefault
                            calibratedState false "2024-04-18")) _ _).
    + by intros [= ?].
    + intros table k [= <-] [-> | ->]%(Hkeys k "2024-04-18") Hle;
        vm_compute in Hle; exact Hle.
Defined.

(** * Further properties of the code *)

(** ** More on the nearest-date lookup *)

Section NearestMore.

Import JS Server.

Variable getTime : string -> option Z.

Implicit Types (dataObj : gmap string float) (target : string).

(** X1.  The entry the lookup returns is the closest one: no key of the
    table with a valid date is nearer to the target, and among keys at the
    same distance the returned one comes first in sort order. *)
Theorem findNearestValue_closest dataObj target n :
  findNearestValue getTime dataObj target = Some n ->
  exists d,
    distance getTime (date n) target = Some d /\
    forall k d', k ∈ dom dataObj -> distance getTime k target = Some d' ->
      (d <= d')%Z /\ (d' = d -> String.le (date n) k).
Proof.
  intros (d & [_ Hd Hmin] & _)%findNearestValue_Some. eauto.
Qed.

(** X2.  The lookup finds a match whenever there is one: if some key lies
    within 30 days of the target, an entry is returned, and it is at least
    as close as that key. *)
Theorem findNearestValue_complete dataObj target k d :
  k ∈ dom dataObj ->
  distance getTime k target = Some d ->
  (d <= 30 * msPerDay)%Z ->
  exists n d0,
    findNearestValue getTime dataObj target = Some n /\
    distance getTime (date n) target = Some d0 /\ (d0 <= d)%Z.
Proof.
  intros Hk Hd Hle.
  destruct (findNearestValue getTime dataObj target) as [n|] eqn:Hfind.
  - apply findNearestValue_Some in Hfind as (d0 & [_ Hd0 Hmin] & _).
    exists n, d0. split_and!; [done..|]. by apply (Hmin k d).
  - apply findNearestValue_None in Hfind. specialize (Hfind k d Hk Hd).
    unfold thirtyDays in Hfind. unfold msPerDay in Hle. lia.
Qed.

(** X3.  A target that does not parse as a date matches nothing, whatever
    the table holds: every difference is [NaN] and no comparison succeeds. *)
Theorem findNearestValue_unparsable_target dataObj target :
  getTime target = None -> findNearestValue getTime dataObj target = None.
Proof.
  intros Htarget. apply findNearestValue_None. intros k d _.
  unfold distance, absDiff. rewrite Htarget. by destruct (getTime k).
Qed.

(** X4.  Looking up a date that is itself a key returns that very entry,
    provided no other key denotes the same day. *)
Theorem findNearestValue_own_key dataObj target v t :
  dataObj !! target = Some v ->
  getTime target = Some t ->
  (forall k, k ∈ dom dataObj -> getTime k = Some t -> k = target) ->
  findNearestValue getTime dataObj target = Some {| date := target; value := v |}.
Proof.
  intros Hv Ht Hinj. apply findNearestValue_Some. exists 0%Z.
  assert (distance getTime target target = Some 0%Z) as Hself.
  { unfold distance, absDiff. rewrite Ht. f_equal. lia. }
  split; [|done]. split; [done|done|]. simpl.
  intros k d' Hk Hd'. unfold distance, absDiff in Hd'. rewrite Ht in Hd'.
  destruct (getTime k) as [tk|] eqn:Htk; [|done]. injection Hd' as <-.
  split; [lia|]. intros Hzero.
  assert (tk = t) as -> by lia. by rewrite (Hinj k Hk Htk).
Qed.

End NearestMore.

(** Between the records of 2024-04-18 and 2024-04-20 the lookup for
    2024-04-19 returns the earlier one, and no key is nearer. *)
Lemma findNearestValue_closest_witness :
  let golds := Server.historicalGoldPrices aroundState in
  Server.findNearestValue JS.dateTime golds "2024-04-19"
    = Some {| Server.date := "2024-04-18"; Server.value := 2380%float |} /\
  exists d,
    distance JS.dateTime "2024-04-18" "2024-04-19" = Some d /\
    forall k d', k ∈ dom golds -> distance JS.dateTime k "2024-04-19" = Some d' ->
      (d <= d')%Z /\ (d' = d -> String.le "2024-04-18" k).
Proof.
  intros golds.
  assert (Server.findNearestValue JS.dateTime golds "2024-04-19"
          = Some {| Server.date := "2024-04-18"; Server.value := 2380%float |})
    as Hfound by (vm_compute; reflexivity).
  split; [exact Hfound|].
  exact (findNearestValue_closest JS.dateTime golds "2024-04-19" _ Hfound).
Defined.

(** A record 30 days before the target is found. *)
Lemma findNearestValue_complete_witness :
  let golds := Server.historicalGoldPrices sameDayState in
  "2024-04-19" ∈ dom golds /\
  distance JS.dateTime "2024-04-19" "2024-05-19" = Some (30 * JS.msPerDay)%Z /\
  exists n d0,
    Server.findNearestValue JS.dateTime golds "2024-05-19" = Some n /\
    distance JS.dateTime (Server.date n) "2024-05-19" = Some d0 /\
    (d0 <= 30 * JS.msPerDay)%Z.
Proof.
  intros golds.
  assert ("2024-04-19" ∈ dom golds) as Hkey.
  { apply elem_of_dom. exists 2391.50%float. vm_compute. reflexivity. }
  assert (distance JS.dateTime "2024-04-19" "2024-05-19"
          = Some (30 * JS.msPerDay)%Z) as Hdist by (vm_compute; reflexivity).
  split; [exact Hkey|]. split; [exact Hdist|].
  exact (findNearestValue_complete JS.dateTime golds "2024-05-19"
           "2024-04-19" _ Hkey Hdist (Z.le_refl _)).
Defined.

(** A month 13 is no date: nothing is matched. *)
Lemma findNearestValue_unparsable_target_witness :
  JS.dateTime "2024-13-45" = None /\
  Server.findNearestValue JS.dateTime
    (Server.historicalGoldPrices sameDayState) "2024-13-45" = None.
Proof.
  split; [reflexivity|].
  exact (findNearestValue_unparsable_target JS.dateTime _ "2024-13-45" eq_refl).
Defined.

(** The record of 2024-04-20 is its own nearest entry. *)
Lemma findNearestValue_own_key_witness :
  let golds := Server.historicalGoldPrices aroundState in
  golds !! "2024-04-20" = Some 2400%float /\
  Server.findNearestValue JS.dateTime golds "2024-04-20"
    = Some {| Server.date := "2024-04-20"; Server.value := 2400%float |}.
Proof.
  intros golds.
  assert (golds !! "2024-04-20" = Some 2400%float) as Hrecord
    by (vm_compute; reflexivity).
  split; [exact Hrecord|].
  apply (findNearestValue_own_key JS.dateTime golds "2024-04-20" _
           1713571200000%Z Hrecord); [vm_compute; reflexivity|].
  intros k Hk. unfold golds, aroundState in Hk. simpl in Hk.
  rewrite dom_insert_L, dom_singleton_L in Hk.
  apply elem_of_union in Hk as [->%elem_of_singleton| ->%elem_of_singleton];
    [done|]. vm_compute. discriminate.
Defined.

(** ** More on the resolver and the price endpoints *)

Section ResolverMore.

Import JS Server.
Open Scope float_scope.

Variable getTime : string -> option Z.

Implicit Types (st : State) (date : string) (metal : option string).

(** X5.  A gold query for a date without a usable exact record but with
    gold records within 30 days returns the value of the nearest record,
    unrounded, tagged [nearest], and names the matched date in the note. *)
Theorem getHistoricalPrice_gold_nearest st date metal n d :
  metalTypeOf metal = "gold" ->
  truthy (historicalGoldPrices st !! date) = false ->
  isNearest getTime (historicalGoldPrices st) date n d ->
  (d <= 30 * msPerDay)%Z ->
  getHistoricalPrice getTime st date metal =
    {| price := value n; source := nearest;
       note := "Nearest available date: " +:+ Server.date n |}.
Proof.
  intros Hmetal Hno Hn Hd. rewrite (resolve_gold _ _ _ _ Hmetal), Hno.
  assert (findNearestValue getTime (historicalGoldPrices st) date = Some n) as ->
    by (apply findNearestValue_Some; eauto).
  done.
Qed.

(** X6.  The tiers a metal can reach: a gold query is answered [exact],
    [nearest] or [fallback], never with a derived tag; a silver query is
    answered [exact], [interpolated], [estimated] or [fallback], never
    [nearest]; any other metal name is answered [fallback]. *)
Theorem getHistoricalPrice_tiers_by_metal st date metal :
  let r := getHistoricalPrice getTime st date metal in
  (metalTypeOf metal = "gold" ->
     source r = exact \/ source r = nearest \/ source r = fallback) /\
  (metalTypeOf metal = "silver" ->
     source r = exact \/ source r = interpolated \/ source r = estimated \/
     source r = fallback) /\
  (metalTypeOf metal <> "gold" -> metalTypeOf metal <> "silver" ->
     source r = fallback).
Proof.
  intros r. subst r. split_and!.
  - intros Hmetal. rewrite (resolve_gold _ _ _ _ Hmetal).
    destruct (truthy _); [by left|].
    destruct (findNearestValue _ _ _); simpl; auto.
  - intros Hmetal. rewrite (resolve_silver _ _ _ _ Hmetal); cbv zeta.
    destruct (truthy (historicalGoldPrices st !! date)); simpl.
    + destruct (truthy _); [by left|].
      destruct (findNearestValue _ _ _); simpl; auto.
    + destruct (findNearestValue _ (historicalGoldPrices st) _); simpl; auto.
  - intros Hg Hs. by rewrite (resolve_other _ _ _ _ Hg Hs).
Qed.

(** X7.  Only the fallback tier reads the live spot cache: a result with
    any other tag is the same whatever the cache holds. *)
Theorem getHistoricalPrice_ignores_cache st date metal cache :
  source (getHistoricalPrice getTime st date metal) <> fallback ->
  getHistoricalPrice getTime (withSpotCache st cache) date metal
    = getHistoricalPrice getTime st date metal.
Proof.
  unfold getHistoricalPrice.
  change (goldExact (withSpotCache st cache)) with (goldExact st).
  change (silverFromExactGold getTime (withSpotCache st cache))
    with (silverFromExactGold getTime st).
  change (goldNearest getTime (withSpotCache st cache))
    with (goldNearest getTime st).
  change (silverFromNearestGold getTime (withSpotCache st cache))
    with (silverFromNearestGold getTime st).
  by destruct (orElse _ _).
Qed.


Lemma getHistoricalPrice_lowered st d metal :
  getHistoricalPrice getTime st d (Some (metalTypeOf metal))
    = getHistoricalPrice getTime st d metal.
Proof. unfold getHistoricalPrice. by rewrite metalTypeOf_idem. Qed.

Lemma testDatePattern_truthy d : testDatePattern d = true -> truthyString d = true.
Proof. by destruct d. Qed.

Lemma testDatePattern_length d :
  testDatePattern d = true -> String.length d = 10%nat.
Proof. do 10 (destruct d as [|? d]; [done|]). by destruct d. Qed.


Lemma bulk_loop st metalType (ds : list string) (results : gmap string float)
    (d : string) :
  foldl (bulkStep getTime st metalType) results ds !! d =
    if bool_decide (d ∈ ds) && testDatePattern d
    then Some (price (getHistoricalPrice getTime st d (Some metalType)))
    else results !! d.
Proof.
  revert results. induction ds as [|x ds IH]; intros results; simpl; [done|].
  rewrite IH. unfold bulkStep.
  destruct (decide (d = x)) as [->|Hne].
  - rewrite (bool_decide_eq_true_2 (x ∈ x :: ds)); [|by left].
    destruct (testDatePattern x); simpl.
    + destruct (bool_decide (x ∈ ds)); [done|]. by rewrite lookup_insert_eq.
    + by destruct (bool_decide (x ∈ ds)).
  - assert (bool_decide (d ∈ x :: ds) = bool_decide (d ∈ ds)) as ->.
    { apply bool_decide_ext. rewrite elem_of_cons.
      split; [by intros [?|?]|by right]. }
    destruct (bool_decide (d ∈ ds) && testDatePattern d); [done|].
    destruct (testDatePattern x); [|done]. by rewrite lookup_insert_ne.
Qed.



(** X10.  The bulk endpoint agrees with the single-date endpoint on every
    date among its first 100: where the single-date endpoint answers 200,
    the bulk answer holds the same price; where it rejects the date, the
    bulk answer has no entry for it; where it rejects the metal, the bulk
    answer holds the cached gold spot price. *)
Theorem bulkHandler_agrees_with_single st body ds d :
  dates body = Some ds ->
  d ∈ take 100 ds ->
  exists results,
    bulkHandler getTime st body =
      Success {| bulkMetal := metalTypeOf (metal body); prices := results |} /\
    match historicalSpotHandler getTime st (Some d) (metal body) with
    | Success json => results !! d = Some (spotPrice json)
    | BadRequest InvalidMetal => results !! d = Some (gold (spotPriceCache st))
    | BadRequest _ => results !! d = None
    end.
Proof.
  intros Hdates Hin. unfold bulkHandler. rewrite Hdates.
  eexists; split; [reflexivity|].
  rewrite bulk_loop, lookup_empty, bool_decide_eq_true_2 by done.
  cbn [andb]. unfold historicalSpotHandler.
  destruct d as [|c d']; [done|].
  change (truthyString (String c d')) with true. cbv [negb].
  destruct (testDatePattern (String c d')); [|done].
  destruct (String.eqb (metalTypeOf (metal body)) "silver") eqn:Hs; [done|].
  destruct (String.eqb (metalTypeOf (metal body)) "gold") eqn:Hg; [done|].
  apply String.eqb_neq in Hs, Hg. cbn [orb].
  by rewrite getHistoricalPrice_lowered, (resolve_other _ _ _ _ Hg Hs).
Qed.

(** X11.  After a live fetch that delivered both prices at a non-zero time
    [now], every request within the next five minutes is answered from the
    cache (the fetched prices, the fetch time as timestamp, [cached: true])
    whatever its own fetch would have returned, and leaves the cache as it
    is. *)
Theorem spotPricesHandler_refresh_then_read cache now later fetched s g
    now2 later2 fetched2 :
  cacheFresh cache now = false ->
  liveQuote fetched = Some (s, g) ->
  now <> 0%Z ->
  (now2 - now < 5 * 60 * 1000)%Z ->
  let cache1 := (spotPricesHandler cache now later fetched).2 in
  spotPricesHandler cache1 now2 later2 fetched2 =
    ({| success := true; silverOut := s; goldOut := g; timestampOut := now;
        cached := Some true; noteOut := None |}, cache1).
Proof.
  intros Hstale Hlive Hnow Hsoon cache1. subst cache1.
  rewrite (spotPricesHandler_cases cache), Hstale, Hlive. simpl.
  rewrite spotPricesHandler_cases. unfold cacheFresh. simpl.
  destruct (Z.eqb_spec now 0); [done|]. simpl.
  destruct (Z.ltb_spec (now2 - now) (5 * 60 * 1000)); [done|lia].
Qed.







End ResolverMore.

(** The scenario of the specification for the [nearest] tier, through X5. *)
Lemma getHistoricalPrice_gold_nearest_witness :
  Server.getHistoricalPrice JS.dateTime sameDayState "2024-04-20" (Some "gold")
  = {| Server.price := 2391.50%float;
       Server.source := Server.nearest;
       Server.note := "Nearest available date: 2024-04-19" |}.
Proof.
  destruct (proj1 (findNearestValue_Some JS.dateTime
                     (Server.historicalGoldPrices sameDayState) "2024-04-20"
                     {| Server.date := "2024-04-19";
                        Server.value := 2391.50%float |}))
    as (d & Hnearest & Hd); [vm_compute; reflexivity|].
  exact (getHistoricalPrice_gold_nearest JS.dateTime sameDayState "2024-04-20"
           (Some "gold") _ d eq_refl eq_refl Hnearest Hd).
Defined.

(** An exact gold answer does not change with the spot cache. *)
Lemma getHistoricalPrice_ignores_cache_witness :
  Server.source (Server.getHistoricalPrice JS.dateTime sameDayState
                   "2024-04-19" (Some "gold")) = Server.exact /\
  Server.getHistoricalPrice JS.dateTime
    (withSpotCache sameDayState tenMinutesOld) "2024-04-19" (Some "gold")
  = Server.getHistoricalPrice JS.dateTime sameDayState "2024-04-19" (Some "gold").
Proof.
  assert (Server.source (Server.getHistoricalPrice JS.dateTime sameDayState
                           "2024-04-19" (Some "gold")) = Server.exact)
    as Hexact by (vm_compute; reflexivity).
  split; [exact Hexact|].
  apply getHistoricalPrice_ignores_cache. rewrite Hexact. discriminate.
Defined.


(** The same request and the single-date endpoint give the same price. *)
Lemma bulkHandler_agrees_with_single_witness :
  let body := {| Server.dates := Some ["2024-04-19"; "yesterday"; "2024-04-19"];
                 Server.metal := Some "Gold" |} in
  exists results json,
    Server.bulkHandler JS.dateTime sameDayState body
      = Server.Success {| Server.bulkMetal := "gold";
                          Server.prices := results |} /\
    Server.historicalSpotHandler JS.dateTime sameDayState
      (Some "2024-04-19") (Some "Gold") = Server.Success json /\
    Server.spotPrice json = 2391.50%float /\
    results !! "2024-04-19" = Some (Server.spotPrice json).
Proof.
  intros body.
  assert ("2024-04-19" ∈ take 100 ["2024-04-19"; "yesterday"; "2024-04-19"])
    as Hin by (simpl; by left).
  destruct (bulkHandler_agrees_with_single JS.dateTime sameDayState body _
              "2024-04-19" eq_refl Hin) as (results & Hresp & Hagree).
  destruct (Server.historicalSpotHandler JS.dateTime sameDayState
              (Some "2024-04-19") (Server.metal body)) as [e|json] eqn:Hsingle;
    [vm_compute in Hsingle; discriminate|].
  exists results, json. split; [exact Hresp|]. split; [exact Hsingle|].
  split; [|exact Hagree].
  vm_compute in Hsingle. injection Hsingle as <-. reflexivity.
Defined.

(** A refresh of the ten-minute-old cache, then a request one minute later
    whose own fetch would fail. *)
Lemma spotPricesHandler_refresh_then_read_witness :
  let fetched := Server.Body (Server.PricesObject (Some 28.9%float)
                                (Some 2402.1%float)) in
  let cache1 := (Server.spotPricesHandler tenMinutesOld 1713485400000
                   1713485400123 fetched).2 in
  liveQuote fetched = Some (28.9%float, 2402.1%float) /\
  Server.spotPricesHandler cache1 1713485460000 1713485460001
    Server.FetchRejected
  = ({| Server.success := true;
        Server.silverOut := 28.9%float;
        Server.goldOut := 2402.1%float;
        Server.timestampOut := 1713485400000;
        Server.cached := Some true;
        Server.noteOut := None |}, cache1).
Proof.
  intros fetched cache1.
  assert (liveQuote fetched = Some (28.9%float, 2402.1%float)) as Hlive
    by (vm_compute; reflexivity).
  split; [exact Hlive|].
  apply (spotPricesHandler_refresh_then_read tenMinutesOld 1713485400000
           1713485400123 fetched _ _ 1713485460000 1713485460001
           Server.FetchRejected eq_refl Hlive); [discriminate|reflexivity].
Defined.



(** ** Loading the historical tables *)

Section LoaderFacts.

Import JS Server Text Loader.
Open Scope float_scope.

Variable getTime : string -> option Z.
Variable parseFloatOfText : string -> float.

Implicit Types (table : gmap string float) (st : State).

Lemma goldStep_entry table record :
  goldStep parseFloatOfText table record
    = putEntry table (goldEntry parseFloatOfText record).
Proof.
  unfold goldStep, goldEntry, putEntry.
  destruct (recordDate record) as [d|]; [|done].
  by destruct (truthyString d && truthyJson (recordPrice record)).
Qed.

Lemma ratioStep_entry table line :
  ratioStep parseFloatOfText table line
    = putEntry table (ratioEntry parseFloatOfText line).
Proof.
  unfold ratioStep, ratioEntry, putEntry.
  destruct (2 <=? length (split comma line))%nat; [|done]. simpl.
  by destruct (_ && _ && _).
Qed.

Lemma foldl_ext_step {X} (f g : gmap string float -> X -> gmap string float)
    table l :
  (forall m x, f m x = g m x) -> foldl f table l = foldl g table l.
Proof.
  intros Hfg. revert table.
  induction l as [|x l IH]; intros table; simpl; [done|]. by rewrite Hfg, IH.
Qed.




Lemma foldl_putEntry_other {X} (entryOf : X -> option (string * float)) table
    (l : list X) k :
  Forall (fun x => forall v, entryOf x <> Some (k, v)) l ->
  foldl (fun m x => putEntry m (entryOf x)) table l !! k = table !! k.
Proof.
  revert table. induction l as [|x l IH]; intros table Hl; simpl; [done|].
  apply Forall_cons in Hl as [Hx Hl]. rewrite IH by done.
  destruct (entryOf x) as [[k' v]|]; simpl; [|done].
  apply lookup_insert_ne. intros ->. by apply (Hx v).
Qed.

Lemma foldl_putEntry_last {X} (entryOf : X -> option (string * float)) table
    (before after : list X) x k v :
  entryOf x = Some (k, v) ->
  Forall (fun y => forall v', entryOf y <> Some (k, v')) after ->
  foldl (fun m y => putEntry m (entryOf y)) table (before ++ x :: after) !! k
    = Some v.
Proof.
  intros Hx Hafter. rewrite foldl_app. simpl. rewrite Hx. simpl.
  rewrite foldl_putEntry_other by done. apply lookup_insert_eq.
Qed.

Lemma foldl_putEntry_positive {X} (entryOf : X -> option (string * float))
    table (l : list X) :
  (forall x k v, entryOf x = Some (k, v) -> (0 <? v) = true) ->
  allPositive table ->
  allPositive (foldl (fun m x => putEntry m (entryOf x)) table l).
Proof.
  intros Hentry. revert table.
  induction l as [|x l IH]; intros table Hpos; simpl; [done|].
  apply IH. destruct (entryOf x) as [[k v]|] eqn:Hx; simpl; [|done].
  intros k' v'. destruct (decide (k' = k)) as [->|Hne].
  - rewrite lookup_insert_eq. intros [= <-]. eauto.
  - rewrite lookup_insert_ne by done. apply Hpos.
Qed.

Lemma ratioEntry_positive line k v :
  ratioEntry parseFloatOfText line = Some (k, v) -> (0 <? v) = true.
Proof.
  unfold ratioEntry.
  destruct (_ && _ && _ && _) eqn:Hguard; [|done].
  intros [= <- <-]. by apply andb_prop in Hguard as [_ ?].
Qed.

(** X14.  The loader keeps the ratio table positive: if every stored ratio
    is a positive number before a load, every stored ratio is one after it,
    whatever the two feeds deliver and however [parseFloat] reads their
    text.  Rows whose last column is zero, negative or not a number are
    never stored. *)
Theorem loadHistoricalData_ratios_positive st goldFetch ratioFetch :
  allPositive (historicalGoldSilverRatio st) ->
  allPositive (historicalGoldSilverRatio
                 (loadHistoricalData parseFloatOfText st goldFetch ratioFetch).1).
Proof.
  intros Hpos. unfold loadHistoricalData.
  destruct goldFetch; [done| |]; destruct ratioFetch; simpl; try done.
  all: rewrite (foldl_ext_step _ _ _ _ (fun m x => ratioStep_entry m x)).
  all: by apply foldl_putEntry_positive; [apply ratioEntry_positive|].
Qed.



(** X17.  A gold record of the feed is served exactly: if the feed holds a
    record for date [d] that contributes the positive price [p], and no
    later record of the feed contributes an entry for [d], then after the
    load a gold query for [d] returns [p] tagged [exact], whatever the
    ratio request did. *)
Theorem loadHistoricalData_then_gold_exact st ratioFetch before record after
    d p metal :
  goldEntry parseFloatOfText record = Some (d, p) ->
  (0 <? p) = true ->
  Forall (fun y => forall v, goldEntry parseFloatOfText y <> Some (d, v)) after ->
  metalTypeOf metal = "gold" ->
  let st' := (loadHistoricalData parseFloatOfText st
                (GoldJson (before ++ record :: after)) ratioFetch).1 in
  price (getHistoricalPrice getTime st' d metal) = p /\
  source (getHistoricalPrice getTime st' d metal) = exact.
Proof.
  intros Hrecord Hp Hafter Hmetal st'.
  assert (historicalGoldPrices st' !! d = Some p) as Hgold.
  { subst st'. unfold loadHistoricalData. destruct ratioFetch; simpl.
    all: rewrite (foldl_ext_step _ _ _ _ (fun m x => goldStep_entry m x)).
    all: by apply foldl_putEntry_last. }
  rewrite (resolve_gold _ _ _ _ Hmetal).
  by destruct (positive_truthy _ _ Hgold Hp) as [-> ->].
Qed.

(** X18.  Feed to silver price: if moreover the ratio file, after its
    header line, holds a line that contributes the ratio [r] for [d], and no
    later line contributes an entry for [d], then after the load a silver
    query for [d] returns [p / r] rounded to 2 decimal places, tagged
    [exact]. *)
Theorem loadHistoricalData_then_silver_exact st before record after d p metal
    csvText header linesBefore line linesAfter r :
  goldEntry parseFloatOfText record = Some (d, p) ->
  (0 <? p) = true ->
  Forall (fun y => forall v, goldEntry parseFloatOfText y <> Some (d, v)) after ->
  split newline csvText = header :: linesBefore ++ line :: linesAfter ->
  ratioEntry parseFloatOfText line = Some (d, r) ->
  Forall (fun y => forall v, ratioEntry parseFloatOfText y <> Some (d, v))
    linesAfter ->
  metalTypeOf metal = "silver" ->
  let st' := (loadHistoricalData parseFloatOfText st
                (GoldJson (before ++ record :: after)) (RatioCsv csvText)).1 in
  price (getHistoricalPrice getTime st' d metal) = toFixed 2 (p / r) /\
  source (getHistoricalPrice getTime st' d metal) = exact.
Proof.
  intros Hrecord Hp Hafter Hlines Hline HlinesAfter Hmetal st'.
  assert (historicalGoldPrices st' !! d = Some p) as Hgold.
  { subst st'. unfold loadHistoricalData. simpl.
    rewrite (foldl_ext_step _ _ _ _ (fun m x => goldStep_entry m x)).
    by apply foldl_putEntry_last. }
  assert (historicalGoldSilverRatio st' !! d = Some r) as Hratio.
  { subst st'. unfold loadHistoricalData. simpl. rewrite Hlines. simpl.
    rewrite (foldl_ext_step _ _ _ _ (fun m x => ratioStep_entry m x)).
    by apply foldl_putEntry_last. }
  pose proof (ratioEntry_positive _ _ _ Hline) as Hr.
  rewrite (resolve_silver _ _ _ _ Hmetal); cbv zeta.
  destruct (positive_truthy _ _ Hgold Hp) as [-> ->].
  by destruct (positive_truthy _ _ Hratio Hr) as [-> ->].
Qed.

End LoaderFacts.

(** The text functions and the loader on the sample feeds. *)
Example split_lines : Text.split Text.newline sampleCsv
  = "date,gold,silver,ratio" :: sampleLines.
Proof. vm_compute. reflexivity. Qed.

Example split_trailing_comma : Text.split Text.comma "a,,b," = ["a"; ""; "b"; ""].
Proof. vm_compute. reflexivity. Qed.

Example trim_both_ends : Text.trim "  2024-04-19 	" = "2024-04-19".
Proof. vm_compute. reflexivity. Qed.

Example parseFloatText_prefix : Text.parseFloatText " 84.5 oz" = 84.5%float.
Proof. vm_compute. reflexivity. Qed.

Example parseFloatText_exponent : Text.parseFloatText "-1.5e3" = (-1500)%float.
Proof. vm_compute. reflexivity. Qed.

Example parseFloatText_no_number : is_nan (Text.parseFloatText "n/a") = true.
Proof. vm_compute. reflexivity. Qed.

Example parseFloatText_overflow : Text.parseFloatText "1e400" = infinity.
Proof. vm_compute. reflexivity. Qed.

Example loadHistoricalData_sample :
  let st := (Loader.loadHistoricalData Text.parseFloatText Loader.initialState
               (Loader.GoldJson sampleFeed) (Loader.RatioCsv sampleCsv)).1 in
  Server.historicalGoldPrices st
    = <[ "2024-04-19" := 2391.5%float ]> {[ "2024-04-18" := 2380.25%float ]} /\
  Server.historicalGoldSilverRatio st
    = <[ "2024-04-19" := 84.5%float ]> {[ "2024-04-18" := 84.4%float ]}.
Proof. split; vm_compute; reflexivity. Qed.

(** From the empty table, the sample file leaves only positive ratios. *)
Lemma loadHistoricalData_ratios_positive_witness :
  allPositive (Server.historicalGoldSilverRatio Loader.initialState) /\
  allPositive (Server.historicalGoldSilverRatio
                 (Loader.loadHistoricalData Text.parseFloatText
                    Loader.initialState (Loader.GoldJson sampleFeed)
                    (Loader.RatioCsv sampleCsv)).1).
Proof.
  assert (allPositive (Server.historicalGoldSilverRatio Loader.initialState))
    as Hempty.
  { intros k v Hk. change ((∅ : gmap string float) !! k = Some v) in Hk.
    by rewrite lookup_empty in Hk. }
  split; [exact Hempty|].
  exact (loadHistoricalData_ratios_positive Text.parseFloatText
           Loader.initialState _ _ Hempty).
Defined.

(** The text price of 2024-04-19 in the sample feed, served exactly. *)
Lemma loadHistoricalData_then_gold_exact_witness :
  let st := (Loader.loadHistoricalData Text.parseFloatText Loader.initialState
               (Loader.GoldJson sampleFeed) Loader.RatioRejected).1 in
  Server.price (Server.getHistoricalPrice JS.dateTime st "2024-04-19"
                  (Some "gold")) = 2391.50%float /\
  Server.source (Server.getHistoricalPrice JS.dateTime st "2024-04-19"
                   (Some "gold")) = Server.exact.
Proof.
  refine (loadHistoricalData_then_gold_exact JS.dateTime Text.parseFloatText
            Loader.initialState Loader.RatioRejected
            [ {| Loader.recordDate := Some "2024-04-18";
                 Loader.recordPrice := Loader.JsonNumber 2380.25 |} ]
            {| Loader.recordDate := Some "2024-04-19";
               Loader.recordPrice := Loader.JsonText "2391.50" |}
            [ {| Loader.recordDate := None;
                 Loader.recordPrice := Loader.JsonNumber 1 |} ]
            "2024-04-19" 2391.50%float (Some "gold") _ _ _ eq_refl).
  - vm_compute. reflexivity.
  - reflexivity.
  - repeat constructor. intros v. vm_compute. discriminate.
Defined.

(** The sample feed and the sample ratio file give silver 28.3 on
    2024-04-19. *)
Lemma loadHistoricalData_then_silver_exact_witness :
  let st := (Loader.loadHistoricalData Text.parseFloatText Loader.initialState
               (Loader.GoldJson sampleFeed) (Loader.RatioCsv sampleCsv)).1 in
  Server.price (Server.getHistoricalPrice JS.dateTime st "2024-04-19" None)
    = 28.3%float /\
  Server.source (Server.getHistoricalPrice JS.dateTime st "2024-04-19" None)
    = Server.exact.
Proof.
  destruct (loadHistoricalData_then_silver_exact JS.dateTime Text.parseFloatText
              Loader.initialState
              [ {| Loader.recordDate := Some "2024-04-18";
                   Loader.recordPrice := Loader.JsonNumber 2380.25 |} ]
              {| Loader.recordDate := Some "2024-04-19";
                 Loader.recordPrice := Loader.JsonText "2391.50" |}
              [ {| Loader.recordDate := None;
                   Loader.recordPrice := Loader.JsonNumber 1 |} ]
              "2024-04-19" 2391.50%float None
              sampleCsv "date,gold,silver,ratio"
              [ "2024-04-18,2380.25,28.2,84.4" ]
              " 2024-04-19 ,2391.50,28.3,84.5"
              [ "no data today"; "2024-04-20,2400,0,0"; "" ]
              84.5%float) as [Hprice Hsource].
  - vm_compute. reflexivity.
  - reflexivity.
  - repeat constructor. intros v. vm_compute. discriminate.
  - vm_compute. reflexivity.
  - vm_compute. reflexivity.
  - repeat constructor; intros v; vm_compute; discriminate.
  - reflexivity.
  - split; [|exact Hsource].
    transitivity (JS.toFixed 2 (2391.50 / 84.5)%float); [exact Hprice|].
    vm_compute. reflexivity.
Defined.

(** ** Cleaning the reply of the vision model *)

Section ReceiptFacts.

Import Text Receipt.

Lemma text_app_empty_l (s : string) : "" +:+ s = s.
Proof. reflexivity. Qed.

Lemma text_app_cons c (a b : string) : String c a +:+ b = String c (a +:+ b).
Proof. reflexivity. Qed.

Lemma text_app_assoc (a b c : string) : a +:+ (b +:+ c) = (a +:+ b) +:+ c.
Proof.
  induction a as [|x a IH]; [done|]. by rewrite !text_app_cons, IH.
Qed.

Lemma text_app_empty_r (s : string) : s +:+ "" = s.
Proof. induction s as [|c s IH]; [done|]. by rewrite text_app_cons, IH. Qed.

Lemma text_rev_app_acc s acc : String.rev_app s acc = String.rev s +:+ acc.
Proof.
  unfold String.rev. revert acc.
  induction s as [|c s IH]; intros acc; simpl; [done|].
  rewrite (IH (String c acc)), (IH (String c "")).
  by rewrite <- text_app_assoc.
Qed.

Lemma text_rev_cons c s : String.rev (String c s) = String.rev s +:+ String c "".
Proof. unfold String.rev at 1. simpl. apply text_rev_app_acc. Qed.

Lemma text_rev_app s1 s2 :
  String.rev (s1 +:+ s2) = String.rev s2 +:+ String.rev s1.
Proof.
  induction s1 as [|c s1 IH].
  - by rewrite text_app_empty_l, text_app_empty_r.
  - by rewrite text_app_cons, !text_rev_cons, IH, text_app_assoc.
Qed.

Lemma text_rev_involutive s : String.rev (String.rev s) = s.
Proof.
  induction s as [|c s IH]; [done|].
  by rewrite text_rev_cons, text_rev_app, IH.
Qed.

Lemma text_length_rev p : String.length (String.rev p) = String.length p.
Proof.
  induction p as [|c p IH]; [done|]. rewrite text_rev_cons. simpl.
  rewrite <- IH. clear IH. induction (String.rev p) as [|x r IH]; [done|].
  rewrite text_app_cons. simpl. by rewrite IH.
Qed.

Lemma trimStart_white ws s :
  allWhiteSpace ws = true -> trimStart (ws +:+ s) = trimStart s.
Proof.
  induction ws as [|c ws IH]; [done|]. rewrite text_app_cons. simpl.
  intros [Hc Hws]%andb_prop. by rewrite Hc, IH.
Qed.

Lemma trimStart_startsSolid s : startsSolid s = true -> trimStart s = s.
Proof.
  destruct s as [|c s]; [done|]. simpl. by intros ->%negb_true_iff.
Qed.

Lemma allWhiteSpace_app a b :
  allWhiteSpace (a +:+ b) = allWhiteSpace a && allWhiteSpace b.
Proof.
  induction a as [|c a IH]; [done|]. rewrite text_app_cons. simpl.
  by rewrite IH, andb_assoc.
Qed.

Lemma allWhiteSpace_rev ws : allWhiteSpace (String.rev ws) = allWhiteSpace ws.
Proof.
  induction ws as [|c ws IH]; [done|].
  rewrite text_rev_cons, allWhiteSpace_app, IH. simpl.
  by rewrite andb_true_r, andb_comm.
Qed.

Lemma trimEnd_white s ws :
  allWhiteSpace ws = true -> trimEnd (s +:+ ws) = trimEnd s.
Proof.
  intros Hws. unfold trimEnd. rewrite text_rev_app, trimStart_white; [done|].
  by rewrite allWhiteSpace_rev.
Qed.

Lemma startsSolid_app a b : startsSolid a = true -> startsSolid (a +:+ b) = true.
Proof. by destruct a. Qed.

Lemma endsSolid_app a b : endsSolid b = true -> endsSolid (a +:+ b) = true.
Proof. unfold endsSolid. rewrite text_rev_app. apply startsSolid_app. Qed.

(** [trim] removes exactly the white space around a text that starts and
    ends with other characters. *)
Lemma trim_solid ws1 s ws2 :
  allWhiteSpace ws1 = true -> allWhiteSpace ws2 = true ->
  startsSolid s = true -> endsSolid s = true ->
  trim (ws1 +:+ s +:+ ws2) = s.
Proof.
  intros H1 H2 Hs He. unfold trim.
  rewrite trimStart_white by done.
  rewrite trimStart_startsSolid by (by apply startsSolid_app).
  rewrite trimEnd_white by done. unfold trimEnd.
  by rewrite trimStart_startsSolid, text_rev_involutive.
Qed.

Lemma text_prefix_app p s : String.prefix p (p +:+ s) = true.
Proof.
  induction p as [|c p IH]; [by destruct s|]. rewrite text_app_cons. simpl.
  by destruct (ascii_dec c c).
Qed.

Lemma sliceFrom_app p s : sliceFrom (String.length p) (p +:+ s) = s.
Proof. induction p as [|c p IH]; [done|]. by rewrite text_app_cons. Qed.

Lemma endsWith_app s p : endsWith p (s +:+ p) = true.
Proof. unfold endsWith. rewrite text_rev_app. apply text_prefix_app. Qed.

Lemma sliceToLast_app s p : sliceToLast (String.length p) (s +:+ p) = s.
Proof.
  unfold sliceToLast. rewrite text_rev_app, <- (text_length_rev p).
  by rewrite sliceFrom_app, text_rev_involutive.
Qed.

(** A pattern starting with a visible character [p0] does not match at the
    start of a text that begins with white space or with another
    character. *)
Lemma prefix_blocked p0 p ws c s :
  isWhiteSpace p0 = false -> p0 <> c -> allWhiteSpace ws = true ->
  String.prefix (String p0 p) (ws +:+ String c s) = false.
Proof.
  intros Hp0 Hc Hws. destruct ws as [|w ws].
  - rewrite text_app_empty_l. simpl. by destruct (ascii_dec p0 c).
  - rewrite text_app_cons. simpl. destruct (ascii_dec p0 w) as [<-|]; [|done].
    simpl in Hws. by rewrite Hp0 in Hws.
Qed.

(** X19.  A reply of the model that holds a JSON object, bare or inside a
    code fence with or without the json tag, with any white space around
    the fence and around the object, is cleaned to exactly the text of the
    object. *)
Theorem stripCodeFence_unwraps_object outer1 inner1 inner inner2 outer2 :
  allWhiteSpace outer1 = true -> allWhiteSpace inner1 = true ->
  allWhiteSpace inner2 = true -> allWhiteSpace outer2 = true ->
  let object := "{" +:+ inner +:+ "}" in
  stripCodeFence (outer1 +:+ object +:+ outer2) = object /\
  stripCodeFence
    (outer1 +:+ ("```json" +:+ inner1 +:+ object +:+ inner2 +:+ "```") +:+ outer2)
    = object /\
  stripCodeFence
    (outer1 +:+ ("```" +:+ inner1 +:+ object +:+ inner2 +:+ "```") +:+ outer2)
    = object.
Proof.
  intros Ho1 Hi1 Hi2 Ho2 object.
  assert (startsSolid object = true) as Hstart by done.
  assert (endsSolid object = true) as Hend.
  { unfold object. by rewrite text_app_assoc; apply endsSolid_app. }
  assert (forall opening,
            endsSolid (opening +:+ inner1 +:+ object +:+ inner2 +:+ "```") = true)
    as Hfenced.
  { intros opening. rewrite !text_app_assoc. by apply endsSolid_app. }
  assert (startsWith "```" (inner1 +:+ object +:+ inner2 +:+ "```") = false)
    as Hnofence.
  { unfold startsWith, object. rewrite !text_app_cons, text_app_empty_l.
    by apply prefix_blocked. }
  assert (endsWith "```" (inner1 +:+ object +:+ inner2 +:+ "```") = true
          /\ sliceToLast 3 (inner1 +:+ object +:+ inner2 +:+ "```")
             = inner1 +:+ object +:+ inner2) as [Hclose Hcut].
  { rewrite !text_app_assoc. split; [apply endsWith_app|].
    apply (sliceToLast_app _ "```"). }
  assert (trim (inner1 +:+ object +:+ inner2) = object) as Hinner
    by (by apply trim_solid).
  assert (trim object = object) as Htrim.
  { rewrite <- (text_app_empty_r object) at 1.
    by apply (trim_solid "" object ""). }
  unfold stripCodeFence. split_and!.
  - rewrite trim_solid by done.
    assert (startsWith "```json" object = false) as -> by done.
    assert (startsWith "```" object = false) as -> by done.
    assert (endsWith "```" object = false) as ->; [|done].
    unfold endsWith, object. by rewrite !text_rev_app.
  - rewrite trim_solid; [|done|done|done|by apply Hfenced].
    assert (startsWith "```json"
              ("```json" +:+ inner1 +:+ object +:+ inner2 +:+ "```") = true)
      as -> by apply text_prefix_app.
    rewrite (sliceFrom_app "```json"). by rewrite Hnofence, Hclose, Hcut.
  - rewrite trim_solid; [|done|done|done|by apply Hfenced].
    assert (startsWith "```json"
              ("```" +:+ inner1 +:+ object +:+ inner2 +:+ "```") = false) as ->.
    { unfold startsWith, object.
      rewrite !text_app_cons, text_app_empty_l. simpl.
      by apply prefix_blocked. }
    assert (startsWith "```" ("```" +:+ inner1 +:+ object +:+ inner2 +:+ "```")
            = true) as -> by apply text_prefix_app.
    rewrite (sliceFrom_app "```"). by rewrite Hclose, Hcut.
Qed.

End ReceiptFacts.

(** The sample object in a tagged fence, one line feed inside each fence
    and a space before the reply. *)
Lemma stripCodeFence_unwraps_object_witness :
  Receipt.stripCodeFence
    (" " +:+ ("```json" +:+ lineFeed +:+ sampleObject +:+ lineFeed +:+ "```")
         +:+ lineFeed)
  = sampleObject.
Proof.
  exact (proj1 (proj2 (stripCodeFence_unwraps_object " " lineFeed _ lineFeed
                         lineFeed eq_refl eq_refl eq_refl eq_refl))).
Defined.

(** A fence without closing line is only opened: the text keeps what
    follows the tag. *)
Example stripCodeFence_open_fence :
  Receipt.stripCodeFence ("```json" +:+ lineFeed +:+ "{}") = "{}".
Proof. vm_compute. reflexivity. Qed.

(** ** More on the ETF ratio calibration *)

Section CalibrateMore.

Import Calibrate CalibrateStatus.
Open Scope float_scope.

Variables DEFAULT_SLV_RATIO DEFAULT_GLD_RATIO : float.

#[local] Instance laterFirst_is_total : Total laterFirst.
Proof. intros a b. unfold laterFirst. apply (total String.le). Qed.

#[local] Instance laterFirst_is_transitive : Transitive laterFirst.
Proof. intros a b c. unfold laterFirst. intros ??. by etrans. Qed.

(** The date the status query selects is the greatest stored date. *)
Lemma selectLastDate_Some table k :
  selectLastDate table = Some k <->
  k ∈ dom table /\ forall k', k' ∈ dom table -> String.le k' k.
Proof.
  unfold selectLastDate.
  pose proof (StronglySorted_merge_sort laterFirst (map_to_list table)) as Hsorted.
  pose proof (merge_sort_Permutation laterFirst (map_to_list table)) as Hperm.
  destruct (merge_sort laterFirst (map_to_list table)) as [|[k1 r1] rest]; simpl.
  - split; [done|]. intros [[r Hr]%elem_of_dom _].
    apply elem_of_map_to_list in Hr. rewrite <- Hperm in Hr.
    by apply elem_of_nil in Hr.
  - apply StronglySorted_cons in Hsorted as [Hhead _].
    assert (table !! k1 = Some r1) as Hk1.
    { apply elem_of_map_to_list. rewrite <- Hperm. by left. }
    assert (forall k', k' ∈ dom table -> String.le k' k1) as Hmax.
    { intros k' [r' Hr']%elem_of_dom. apply elem_of_map_to_list in Hr'.
      rewrite <- Hperm in Hr'.
      apply elem_of_cons in Hr' as [[= -> ->]|Hin]; [done|].
      rewrite Forall_forall in Hhead. by apply (Hhead _ Hin). }
    split.
    + intros [= <-]. split; [apply elem_of_dom; eauto|done].
    + intros [Hk Hall]. f_equal. apply (anti_symm String.le).
      * apply Hall. apply elem_of_dom; eauto.
      * by apply Hmax.
Qed.

(** What a calibration that returns a result has read and computed. *)
Lemma calibrateRatios_ok st w g s c :
  (calibrateRatios st w g s).1 = Some c ->
  exists sq gq,
    quotes w = Some {| slv := Some sq; gld := Some gq |} /\
    c = {| slvRatio := quotePrice sq / s; gldRatio := quotePrice gq / g;
           slvPrice := quotePrice sq; gldPrice := quotePrice gq |}.
Proof.
  unfold calibrateRatios.
  destruct (quotes w) as [[[sq|] [gq|]]|]; simpl; try done.
  intros [= <-]. by exists sq, gq.
Qed.

(** X20.  What a calibration returns is what the same process reads back:
    after a calibration that returned ratios, [getRatioForDate] for that
    day returns exactly these ratios, with or without storage and whether or
    not the storage answers. *)
Theorem calibrateRatios_then_getRatioForDate st w currentGoldSpot
    currentSilverSpot c queryFails :
  (calibrateRatios st w currentGoldSpot currentSilverSpot).1 = Some c ->
  getRatioForDate DEFAULT_SLV_RATIO DEFAULT_GLD_RATIO
    (calibrateRatios st w currentGoldSpot currentSilverSpot).2 queryFails
    (today w)
  = {| ratioSlv := slvRatio c; ratioGld := gldRatio c |}.
Proof.
  unfold calibrateRatios.
  destruct (quotes w) as [q|]; [|done].
  destruct (slv q) as [sq|], (gld q) as [gq|]; try done.
  simpl. intros [= <-]. unfold getRatioForDate. simpl.
  by rewrite decide_True.
Qed.

(** X21.  After a calibration that returned ratios, [needsCalibration] is
    false for the rest of that day, with or without storage. *)
Theorem calibrateRatios_then_needsCalibration st w currentGoldSpot
    currentSilverSpot c queryFails :
  (calibrateRatios st w currentGoldSpot currentSilverSpot).1 = Some c ->
  today w <> "" ->
  needsCalibration (calibrateRatios st w currentGoldSpot currentSilverSpot).2
    queryFails (today w) = false.
Proof.
  unfold calibrateRatios.
  destruct (quotes w) as [q|]; [|done].
  destruct (slv q) as [sq|], (gld q) as [gq|]; try done.
  simpl. intros _ Hday. unfold needsCalibration, getLastCalibrationDate. simpl.
  destruct (today w) as [|ch t]; [done|]. simpl.
  by rewrite bool_decide_eq_true_2.
Qed.

(** X22.  A second calibration on the same day replaces the first: when it
    returns ratios and its upsert succeeds, the cache and the stored records
    are exactly what this calibration alone would have left; one record for
    the day, holding the later values. *)
Theorem calibrateRatios_same_day_supersedes st w1 g1 s1 w2 g2 s2 c :
  today w1 = today w2 ->
  upsertError w2 = None ->
  (calibrateRatios st w2 g2 s2).1 = Some c ->
  calibrateRatios (calibrateRatios st w1 g1 s1).2 w2 g2 s2
    = calibrateRatios st w2 g2 s2.
Proof.
  intros Hday Hok (sq & gq & Hq & _)%calibrateRatios_ok.
  unfold calibrateRatios at 1 3. rewrite Hq. simpl.
  f_equal. f_equal.
  unfold calibrateRatios.
  destruct (quotes w1) as [[[sq1|] [gq1|]]|]; simpl; try done.
  destruct (etf_ratios st) as [table|]; simpl; [|done]. f_equal.
  unfold upsert. rewrite Hok.
  destruct (upsertError w1); [done|]. rewrite Hday. apply insert_insert_eq.
Qed.

(** X23.  A calibration never touches the records of other days: with the
    storage configured, the stored row of every date other than today is
    after the call what it was before, whatever the quotes and the upsert
    do. *)
Theorem calibrateRatios_other_dates st w g s table k :
  etf_ratios st = Some table ->
  k <> today w ->
  exists table',
    etf_ratios (calibrateRatios st w g s).2 = Some table' /\
    table' !! k = table !! k.
Proof.
  intros Htable Hk. unfold calibrateRatios.
  destruct (quotes w) as [[[sq|] [gq|]]|]; simpl; rewrite Htable; simpl; eauto.
  eexists; split; [done|]. unfold upsert.
  destruct (upsertError w); [done|]. by apply lookup_insert_ne.
Qed.


(** X25.  In a fresh process whose storage answers, [needsCalibration] is
    false exactly when the storage is configured and its latest record is
    dated today: a record for today that is not the latest does not
    count. *)
Theorem needsCalibration_after_restart st today :
  needsCalibration (restarted DEFAULT_SLV_RATIO DEFAULT_GLD_RATIO st) false today
    = false <->
  exists table, etf_ratios st = Some table /\ today ∈ dom table /\
    forall k, k ∈ dom table -> String.le k today.
Proof.
  unfold needsCalibration, getLastCalibrationDate, restarted. simpl.
  rewrite negb_false_iff, bool_decide_eq_true.
  destruct (etf_ratios st) as [table|].
  - rewrite selectLastDate_Some. split; [eauto|]. by intros (? & [= <-] & ?).
  - split; [done|]. by intros (? & ? & _).
Qed.

End CalibrateMore.

Section CalibrationScenarios2.

Import Calibrate.
Open Scope float_scope.

(** Both quotes arrive on 2024-04-23 and the upsert succeeds. *)
Definition storageUp : World :=
  {| quotes := Some {| slv := Some {| quotePrice := 28.10 |};
                       gld := Some {| quotePrice := 246.9 |} |};
     today := "2024-04-23";
     nowIso := "2024-04-23T14:30:00.000Z";
     upsertError := None |}.

(** A second run later that day with other quotes. *)
Definition storageUpLater : World :=
  {| quotes := Some {| slv := Some {| quotePrice := 28.40 |};
                       gld := Some {| quotePrice := 247.3 |} |};
     today := "2024-04-23";
     nowIso := "2024-04-23T20:00:00.000Z";
     upsertError := None |}.

End CalibrationScenarios2.

(** The scenario of C8, read back: the ratios returned on 2024-04-23 are the
    ratios [getRatioForDate] gives for that day although the upsert failed,
    and no calibration is needed any more that day. *)
Lemma calibrateRatios_then_getRatioForDate_witness :
  let result := Calibrate.calibrateRatios calibratedState storageDown 2650 30.5 in
  exists c,
    result.1 = Some c /\
    Calibrate.getRatioForDate sampleSlvDefault sampleGldDefault result.2 true
      "2024-04-23"
    = {| Calibrate.ratioSlv := Calibrate.slvRatio c;
         Calibrate.ratioGld := Calibrate.gldRatio c |}.
Proof.
  intros result.
  exists {| Calibrate.slvRatio := (28.10 / 30.5)%float;
            Calibrate.gldRatio := (246.9 / 2650)%float;
            Calibrate.slvPrice := 28.10%float;
            Calibrate.gldPrice := 246.9%float |}.
  split; [reflexivity|].
  exact (calibrateRatios_then_getRatioForDate sampleSlvDefault sampleGldDefault
           calibratedState storageDown 2650 30.5 _ true eq_refl).
Defined.

Lemma calibrateRatios_then_needsCalibration_witness :
  CalibrateStatus.needsCalibration calibratedState false "2024-04-23" = true /\
  CalibrateStatus.needsCalibration
    (Calibrate.calibrateRatios calibratedState storageDown 2650 30.5).2
    false "2024-04-23" = false.
Proof.
  split; [vm_compute; reflexivity|].
  refine (calibrateRatios_then_needsCalibration calibratedState storageDown
            2650 30.5 _ false eq_refl _).
  discriminate.
Defined.

(** Two runs on 2024-04-23: the stored table holds one record for the day,
    with the ratios of the second run. *)
Lemma calibrateRatios_same_day_supersedes_witness :
  let once := Calibrate.calibrateRatios calibratedState storageUpLater 2655 30.7 in
  let twice :=
    Calibrate.calibrateRatios
      (Calibrate.calibrateRatios calibratedState storageUp 2650 30.5).2
      storageUpLater 2655 30.7 in
  twice = once /\
  exists table row,
    Calibrate.etf_ratios twice.2 = Some table /\
    table !! "2024-04-23" = Some row /\
    Calibrate.slv_ratio row = (28.40 / 30.7)%float /\
    size table = 3.
Proof.
  intros once twice.
  assert (twice = once) as Hsame.
  { refine (calibrateRatios_same_day_supersedes calibratedState storageUp
              2650 30.5 storageUpLater 2655 30.7 _ eq_refl eq_refl _).
    reflexivity. }
  split; [exact Hsame|]. rewrite Hsame.
  eexists _, _. split; [reflexivity|].
  split; [vm_compute; reflexivity|]. split; vm_compute; reflexivity.
Defined.

(** The record of 2024-04-19 is untouched by a calibration on
    2024-04-23. *)
Lemma calibrateRatios_other_dates_witness :
  exists table',
    Calibrate.etf_ratios
      (Calibrate.calibrateRatios calibratedState storageUp 2650 30.5).2
      = Some table' /\
    table' !! "2024-04-19" = Some (sampleRow 0.921 0.0931).
Proof.
  destruct (calibrateRatios_other_dates calibratedState storageUp 2650 30.5
              _ "2024-04-19" eq_refl) as (table' & Htable & Hrow);
    [discriminate|].
  exists table'. split; [exact Htable|]. rewrite Hrow.
  vm_compute. reflexivity.
Defined.


(** ** The app's historical price, served by this backend *)

Section AppFacts.

Import JS Server App.

Variable getTime : string -> option Z.


End AppFacts.

(** The app on its gold tab asks for 2024-04-19 without naming a metal and
    gets the recorded gold price. *)
Example fetchHistoricalSpot_gold_tab :
  App.fetchHistoricalSpot goldTabApp (backend JS.dateTime sameDayState)
    "2024-04-19" None = Some 2391.50%float.
Proof. vm_compute. reflexivity. Qed.

(** Asked for [Gold] with a timestamp the backend rejects, it falls back to
    its silver spot: the fallback compares the metal with [gold] as
    written. *)
Example fetchHistoricalSpot_capital_gold :
  App.fetchHistoricalSpot goldTabApp (backend JS.dateTime sameDayState)
    "2024-04-19T10:00" (Some "Gold") = Some 29.1%float.
Proof. vm_compute. reflexivity. Qed.
